(** * BoatTracking: the AIS ingestion-and-republish pipeline

    A shallow embedding of [Tools/1-Data_Gathering/BoatTracking/main.go].
    The program dials the AIS feed over a websocket, sends one subscribe
    frame, and then loops for ever: read a frame, decode it with
    [encoding/json], and forward position reports to Kafka.

    The program text is embedded as interaction trees over the calls it makes
    to its environment (websocket, Kafka writer, clock, log, process
    environment).  The pure library routines it calls ([json.Unmarshal] into
    the [Message] struct, [json.Marshal] of the subscribe message,
    [fmt.Sprintf "%d"], the [LeastBytes] balancer of kafka-go) are embedded as
    functions.  Conversions between decimal text and [float64] are an
    interface ([FloatConv]). *)

From Stdlib Require Import ZArith List String Ascii Bool Lia.
From Stdlib Require Import Floats.SpecFloat DecimalString.
From Stdlib Require DecimalPos DecimalZ.
From ITree Require Import ITree ITreeFacts Events.State Events.StateFacts.
Import ITreeNotations ListNotations.
Local Open Scope itree_scope.
Local Open Scope string_scope.
Local Open Scope Z_scope.
Set Warnings "-register-all".

(** ** Bytes and text

    A Go [string] and a Go [[]byte] are both sequences of bytes; both are
    [string] here (a list of 8-bit [ascii]). *)

Definition code (c : ascii) : Z := Z.of_N (N_of_ascii c).
Definition chr (n : Z) : ascii := ascii_of_N (Z.to_N n).

Definition between (lo hi : Z) (c : ascii) : bool :=
  (lo <=? code c) && (code c <=? hi).

Fixpoint drop (n : nat) (s : string) : string :=
  match n, s with
  | O, _ => s
  | S n', String _ s' => drop n' s'
  | S _, EmptyString => EmptyString
  end.

(** [len(s)] of Go: the number of bytes. *)
Definition len (s : string) : Z := Z.of_nat (String.length s).

(** ** float64

    A [float64] is an IEEE 754 binary64 value, in the Standard Library's
    specification of floats: sign, mantissa and exponent. *)

Definition float64 : Type := spec_float.

(** The [float64] of an integer constant such as [-180]. *)
Definition float64_of_Z (z : Z) : float64 := binary_normalize 53 1024 z 0 false.

Definition float64_zero : float64 := S754_zero false.

Definition float64_is_finite (f : float64) : bool :=
  match f with
  | S754_zero _ | S754_finite _ _ _ => true
  | S754_infinity _ | S754_nan => false
  end.

(** [strconv.ParseFloat(s, 64)] and the float encoder of [encoding/json]
    ([strconv.AppendFloat] in the shortest form that reads back) are library
    routines on floating point; the development holds for any pair of them.
    [ParseFloat] is [None] where Go returns an error (a range error, for a
    number literal that the JSON scanner has accepted). *)
Class FloatConv : Type := {
  ParseFloat : string -> option float64;
  AppendFloat : float64 -> string
}.

(** ** fmt and strconv on integers *)

(** [fmt.Sprintf("%d", n)]: the decimal digits, with [-] before a negative
    number. *)
Definition Sprintf_d (n : Z) : string := NilZero.string_of_int (Z.to_int n).

Definition is_digit (c : ascii) : bool := between 48 57 c.

Fixpoint all_digits (s : string) : bool :=
  match s with
  | EmptyString => true
  | String c s' => is_digit c && all_digits s'
  end.

(** The value of a run of decimal digits, most significant first. *)
Fixpoint digits_value (acc : Z) (s : string) : Z :=
  match s with
  | EmptyString => acc
  | String c s' => digits_value (10 * acc + (code c - 48)) s'
  end.

(** [strconv.ParseInt(s, 10, 64)] followed by the overflow test of a Go [int]
    field (64 bits): an optional sign, then digits only, and a value in
    [-2^63, 2^63). *)
Definition ParseInt (s : string) : option Z :=
  let '(neg, ds) :=
    match s with
    | String "-" r => (true, r)
    | String "+" r => (false, r)
    | _ => (false, s)
    end in
  match ds with
  | EmptyString => None
  | _ =>
    if all_digits ds then
      let n := if neg then - digits_value 0 ds else digits_value 0 ds in
      if (- 2 ^ 63 <=? n) && (n <? 2 ^ 63) then Some n else None
    else None
  end.

(** ** Errors

    Go's [error] values, as far as the program makes or wraps them. *)
Inductive error : Type :=
| Err (msg : string)
    (* an error of the websocket or Kafka client *)
| SyntaxError
    (* *json.SyntaxError: the frame is not one JSON value *)
| UnmarshalTypeError (value goType : string)
    (* *json.UnmarshalTypeError: a JSON value that does not fit the Go type *)
| UnsupportedValueError
    (* *json.UnsupportedValueError: a NaN or an infinity in json.Marshal *)
| Errorf (format : string) (cause : error).
    (* fmt.Errorf(format, cause) with the verb %w *)

(** ** UTF-8, as [unicode/utf8] decodes and encodes it *)
Module utf8.

Definition RuneError : Z := 65533.

Definition cont (lo hi : Z) (s : string) : option Z :=
  match s with
  | String c _ => if between lo hi c then Some (code c - 128) else None
  | EmptyString => None
  end.

(** [utf8.DecodeRune]: the first rune of [s] and its width in bytes; an
    invalid or short encoding is [(RuneError, 1)]. [s] is not empty. *)
Definition DecodeRune (s : string) : Z * nat :=
  match s with
  | EmptyString => (RuneError, 0%nat)
  | String c0 r1 =>
    let b0 := code c0 in
    if b0 <? 128 then (b0, 1%nat)
    else if (194 <=? b0) && (b0 <=? 223) then
      match cont 128 191 r1 with
      | Some b1 => ((b0 - 192) * 64 + b1, 2%nat)
      | None => (RuneError, 1%nat)
      end
    else if (224 <=? b0) && (b0 <=? 239) then
      let lo := if b0 =? 224 then 160 else 128 in
      let hi := if b0 =? 237 then 159 else 191 in
      match cont lo hi r1, cont 128 191 (drop 1 r1) with
      | Some b1, Some b2 => ((b0 - 224) * 4096 + b1 * 64 + b2, 3%nat)
      | _, _ => (RuneError, 1%nat)
      end
    else if (240 <=? b0) && (b0 <=? 244) then
      let lo := if b0 =? 240 then 144 else 128 in
      let hi := if b0 =? 244 then 143 else 191 in
      match cont lo hi r1, cont 128 191 (drop 1 r1), cont 128 191 (drop 2 r1) with
      | Some b1, Some b2, Some b3 =>
        ((b0 - 240) * 262144 + b1 * 4096 + b2 * 64 + b3, 4%nat)
      | _, _, _ => (RuneError, 1%nat)
      end
    else (RuneError, 1%nat)
  end.

(** [utf8.EncodeRune]: a surrogate or a rune past U+10FFFF is written as
    U+FFFD. *)
Definition EncodeRune (r : Z) : string :=
  let r := if (r <? 0) || (1114111 <? r) || ((55296 <=? r) && (r <=? 57343))
           then RuneError else r in
  if r <? 128 then String (chr r) EmptyString
  else if r <? 2048 then
    String (chr (192 + r / 64)) (String (chr (128 + r mod 64)) EmptyString)
  else if r <? 65536 then
    String (chr (224 + r / 4096))
      (String (chr (128 + (r / 64) mod 64)) (String (chr (128 + r mod 64)) EmptyString))
  else
    String (chr (240 + r / 262144))
      (String (chr (128 + (r / 4096) mod 64))
        (String (chr (128 + (r / 64) mod 64)) (String (chr (128 + r mod 64)) EmptyString))).

End utf8.

(** ** encoding/json: the scanner

    [json.Unmarshal] first checks that its input is one JSON value
    ([checkValid]), then stores the value into the Go variable.  The first
    step is [parse]: it yields the value as a tree, or [None] where Go returns
    a [*json.SyntaxError]. *)
Module json.

Inductive value : Type :=
| Null
| Bool (b : bool)
| Number (literal : string)
| Str (s : string)
| Array (elements : list value)
| Object (members : list (string * value)).

Definition dquote : ascii := chr 34.
Definition backslash : ascii := chr 92.

Definition is_space (c : ascii) : bool :=
  (code c =? 32) || (code c =? 9) || (code c =? 13) || (code c =? 10).

Fixpoint skip_space (s : string) : string :=
  match s with
  | String c r => if is_space c then skip_space r else s
  | EmptyString => s
  end.

Definition hexval (c : ascii) : option Z :=
  if between 48 57 c then Some (code c - 48)
  else if between 97 102 c then Some (code c - 87)
  else if between 65 70 c then Some (code c - 55)
  else None.

Definition is_hex (c : ascii) : bool :=
  match hexval c with Some _ => true | None => false end.

Definition cons_opt (c : ascii) (r : option (string * string)) :
  option (string * string) :=
  match r with
  | Some (raw, rest) => Some (String c raw, rest)
  | None => None
  end.

(** After an opening quote: the raw text up to the closing quote, and what
    follows it.  A control character, an unknown escape or a missing quote is
    a syntax error. *)
Fixpoint scan_string (s : string) : option (string * string) :=
  match s with
  | EmptyString => None
  | String c r =>
    if (c =? dquote)%char then Some (EmptyString, r)
    else if code c <? 32 then None
    else if (c =? backslash)%char then
      match r with
      | EmptyString => None
      | String e r' =>
        if (e =? "u")%char then
          match r' with
          | String h1 (String h2 (String h3 (String h4 r''))) =>
            if is_hex h1 && is_hex h2 && is_hex h3 && is_hex h4 then
              cons_opt c (cons_opt e (cons_opt h1 (cons_opt h2
                (cons_opt h3 (cons_opt h4 (scan_string r''))))))
            else None
          | _ => None
          end
        else if (e =? dquote)%char || (e =? backslash)%char || (e =? "/")%char
             || (e =? "b")%char || (e =? "f")%char || (e =? "n")%char
             || (e =? "r")%char || (e =? "t")%char then
          cons_opt c (cons_opt e (scan_string r'))
        else None
      end
    else cons_opt c (scan_string r)
  end.

(** [getu4]: the 16-bit value of a leading [\uXXXX], or [-1]. *)
Definition getu4 (s : string) : Z :=
  match s with
  | String b (String u (String h1 (String h2 (String h3 (String h4 _))))) =>
    if (b =? backslash)%char && (u =? "u")%char then
      match hexval h1, hexval h2, hexval h3, hexval h4 with
      | Some a, Some b, Some c, Some d => ((a * 16 + b) * 16 + c) * 16 + d
      | _, _, _, _ => -1
      end
    else -1
  | _ => -1
  end.

Definition unescape (e : ascii) : ascii :=
  if (e =? "b")%char then chr 8
  else if (e =? "f")%char then chr 12
  else if (e =? "n")%char then chr 10
  else if (e =? "r")%char then chr 13
  else if (e =? "t")%char then chr 9
  else e.

(** [unquote]: the text a scanned string stands for.  Escapes are replaced, a
    surrogate pair becomes one rune, a lone surrogate and every byte that is
    not UTF-8 become U+FFFD. *)
Fixpoint unquote_fuel (fuel : nat) (s : string) : string :=
  match fuel with
  | O => EmptyString
  | S fuel' =>
    match s with
    | EmptyString => EmptyString
    | String c r =>
      if (c =? backslash)%char then
        match r with
        | EmptyString => EmptyString
        | String e r' =>
          if (e =? "u")%char then
            let rr := getu4 s in
            let s1 := drop 6 s in
            if (55296 <=? rr) && (rr <? 57344) then
              let rr1 := getu4 s1 in
              if (rr <? 56320) && (56320 <=? rr1) && (rr1 <? 57344) then
                utf8.EncodeRune ((rr - 55296) * 1024 + (rr1 - 56320) + 65536)
                ++ unquote_fuel fuel' (drop 6 s1)
              else utf8.EncodeRune utf8.RuneError ++ unquote_fuel fuel' s1
            else utf8.EncodeRune rr ++ unquote_fuel fuel' s1
          else String (unescape e) (unquote_fuel fuel' r')
        end
      else if code c <? 128 then String c (unquote_fuel fuel' r)
      else
        let '(rr, size) := utf8.DecodeRune s in
        utf8.EncodeRune rr ++ unquote_fuel fuel' (drop size s)
    end
  end.

Definition unquote (s : string) : string := unquote_fuel (String.length s) s.

Fixpoint scan_digits (s : string) : string * string :=
  match s with
  | String c r =>
    if is_digit c then let '(ds, rest) := scan_digits r in (String c ds, rest)
    else (EmptyString, s)
  | EmptyString => (EmptyString, s)
  end.

(** A number literal: an optional minus sign; a lone zero or digits that do
    not start with zero; an optional fraction (a point and digits); an
    optional exponent (e or E, an optional sign, digits). *)
Definition scan_number (s : string) : option (string * string) :=
  let '(sign, s0) :=
    match s with
    | String "-" r => ("-", r)
    | _ => (EmptyString, s)
    end in
  let int_part :=
    match s0 with
    | String "0" r => Some ("0", r)
    | _ => match scan_digits s0 with
           | (EmptyString, _) => None
           | (ds, r) => Some (ds, r)
           end
    end in
  match int_part with
  | None => None
  | Some (ip, s1) =>
    let frac_part :=
      match s1 with
      | String "." r =>
        match scan_digits r with
        | (EmptyString, _) => None
        | (ds, r') => Some (String "." ds, r')
        end
      | _ => Some (EmptyString, s1)
      end in
    match frac_part with
    | None => None
    | Some (fp, s2) =>
      let exp_part :=
        match s2 with
        | String e r =>
          if (e =? "e")%char || (e =? "E")%char then
            let '(sg, r0) :=
              match r with
              | String "+" r' => ("+", r')
              | String "-" r' => ("-", r')
              | _ => (EmptyString, r)
              end in
            match scan_digits r0 with
            | (EmptyString, _) => None
            | (ds, r') => Some (String e (sg ++ ds), r')
            end
          else Some (EmptyString, s2)
        | EmptyString => Some (EmptyString, s2)
        end in
      match exp_part with
      | None => None
      | Some (ep, s3) => Some (sign ++ ip ++ fp ++ ep, s3)
      end
    end
  end.

(** Objects and arrays nested deeper than this are refused. *)
Definition maxNestingDepth : Z := 10000.

(** One JSON value at the head of [s] (no leading space) and the rest of the
    input.  [fuel] bounds the recursion; the length of the input is enough.
    [parse_members] and [parse_elements] read what follows the first member
    or element position of an object or array that is not empty. *)
Fixpoint parse_value (fuel : nat) (depth : Z) (s : string) {struct fuel} :
  option (value * string) :=
  match fuel with
  | O => None
  | S fuel' =>
    match s with
    | EmptyString => None
    | String c r =>
      if (c =? "{")%char then
        if maxNestingDepth <? depth + 1 then None
        else match skip_space r with
             | String "}" r' => Some (Object [], r')
             | r' => parse_members fuel' (depth + 1) r' []
             end
      else if (c =? "[")%char then
        if maxNestingDepth <? depth + 1 then None
        else match skip_space r with
             | String "]" r' => Some (Array [], r')
             | r' => parse_elements fuel' (depth + 1) r' []
             end
      else if (c =? dquote)%char then
        match scan_string r with
        | Some (raw, r') => Some (Str (unquote raw), r')
        | None => None
        end
      else if (c =? "-")%char || is_digit c then
        match scan_number s with
        | Some (lit, r') => Some (Number lit, r')
        | None => None
        end
      else if prefix "true" s then Some (Bool true, drop 4 s)
      else if prefix "false" s then Some (Bool false, drop 5 s)
      else if prefix "null" s then Some (Null, drop 4 s)
      else None
    end
  end

with parse_members (fuel : nat) (depth : Z) (s : string)
       (acc : list (string * value)) {struct fuel} : option (value * string) :=
  match fuel with
  | O => None
  | S fuel' =>
    match s with
    | EmptyString => None
    | String q r =>
      if (q =? dquote)%char then
        match scan_string r with
        | None => None
        | Some (raw, r1) =>
          match skip_space r1 with
          | String ":" r2 =>
            match parse_value fuel' depth (skip_space r2) with
            | None => None
            | Some (v, r3) =>
              match skip_space r3 with
              | String "," r4 =>
                parse_members fuel' depth (skip_space r4) ((unquote raw, v) :: acc)
              | String "}" r4 => Some (Object (rev ((unquote raw, v) :: acc)), r4)
              | _ => None
              end
            end
          | _ => None
          end
        end
      else None
    end
  end

with parse_elements (fuel : nat) (depth : Z) (s : string)
       (acc : list value) {struct fuel} : option (value * string) :=
  match fuel with
  | O => None
  | S fuel' =>
    match parse_value fuel' depth s with
    | None => None
    | Some (v, r1) =>
      match skip_space r1 with
      | String "," r2 => parse_elements fuel' depth (skip_space r2) (v :: acc)
      | String "]" r2 => Some (Array (rev (v :: acc)), r2)
      | _ => None
      end
    end
  end.

(** The whole input is one JSON value between optional white space. *)
Definition parse (data : string) : option value :=
  match parse_value (S (String.length data)) 0 (skip_space data) with
  | Some (v, rest) =>
    match skip_space rest with
    | EmptyString => Some v
    | _ => None
    end
  | None => None
  end.

End json.

(** ** The program's types (main.go, lines 15-31)

    A slice is a list; the program builds its slices as literals, so a nil
    slice is not told apart from an empty one.  A Go [int] is 64 bits wide. *)

Record SubscribeMessage : Type := {
  APIKey : string;
  BoundingBoxes : list (list (list float64))
}.

Record PositionReport : Type := {
  UserID : Z;
  Latitude : float64;
  Longitude : float64
}.

(** The anonymous struct of the field [Message.Message]. *)
Record MessageBody : Type := {
  body_PositionReport : PositionReport
}.

Record Message : Type := {
  MessageType : string;
  Message_Message : MessageBody
}.

(** The zero values a [var message Message] starts from. *)
Definition zero_PositionReport : PositionReport :=
  {| UserID := 0; Latitude := float64_zero; Longitude := float64_zero |}.
Definition zero_MessageBody : MessageBody :=
  {| body_PositionReport := zero_PositionReport |}.
Definition zero_Message : Message :=
  {| MessageType := EmptyString; Message_Message := zero_MessageBody |}.

(** ** encoding/json: storing a value into the program's structs

    The decoder walks the JSON value and the Go type together.  A JSON value
    that does not fit its Go type is recorded as an [UnmarshalTypeError] and
    skipped; decoding goes on, and [Unmarshal] returns the first error
    recorded.  [null] leaves a string, a number or a struct as it was. *)
Module decode.

Import json.

(** [UnmarshalTypeError.Value]. *)
Definition describe (v : value) : string :=
  match v with
  | Null => "null"
  | Bool _ => "bool"
  | Number _ => "number"
  | Str _ => "string"
  | Array _ => "array"
  | Object _ => "object"
  end.

(** [saveError]: the first error stays. *)
Definition saveError (saved new : option error) : option error :=
  match saved with
  | Some _ => saved
  | None => new
  end.

Definition to_upper (c : ascii) : ascii :=
  if between 97 122 c then chr (code c - 32) else c.

(** [foldName]: the key with letters folded, so that two keys are equal
    without regard to case exactly when their folded forms are equal.  ASCII
    letters become capitals.  A rune outside ASCII becomes the least rune of
    its case orbit: U+017F (long s) becomes [S] and U+212A (the Kelvin sign)
    becomes [K], the only two runes with ASCII letters in their orbit; the
    other runes are kept as they are here, which changes no comparison with
    the ASCII field names of this program. *)
Fixpoint foldName (s : string) : string :=
  match s with
  | EmptyString => EmptyString
  | String c r =>
    match r with
    | String c1 r1 =>
      if (code c =? 197) && (code c1 =? 191) then String "S" (foldName r1)
      else
        match r1 with
        | String c2 r2 =>
          if (code c =? 226) && (code c1 =? 132) && (code c2 =? 170)
          then String "K" (foldName r2)
          else String (to_upper c) (foldName r)
        | EmptyString => String (to_upper c) (foldName r)
        end
    | EmptyString => String (to_upper c) EmptyString
    end
  end.

(** The struct field a key names: the field of that very name, or else the
    first field equal to it without regard to case; [None] for a key that
    names no field (the member is skipped). *)
Definition find_field (fields : list string) (key : string) : option string :=
  match find (String.eqb key) fields with
  | Some f => Some f
  | None => find (fun f => foldName f =? foldName key)%string fields
  end.

(** A JSON object into a struct with the fields [fields]: each member whose
    key names a field is stored by [store], in the order of the input, so a
    repeated key is stored again. *)
Definition object_into {T : Type} (goType : string) (fields : list string)
    (store : string -> value -> T -> T * option error)
    (v : value) (old : T) : T * option error :=
  match v with
  | Object members =>
    fold_left
      (fun (acc : T * option error) (kv : string * value) =>
         match find_field fields (fst kv) with
         | Some f =>
           let '(t, e) := store f (snd kv) (fst acc) in (t, saveError (snd acc) e)
         | None => acc
         end)
      members (old, None)
  | Null => (old, None)
  | _ => (old, Some (UnmarshalTypeError (describe v) goType))
  end.

Definition string_into (v : value) (old : string) : string * option error :=
  match v with
  | Str s => (s, None)
  | Null => (old, None)
  | _ => (old, Some (UnmarshalTypeError (describe v) "string"))
  end.

Definition int_into (v : value) (old : Z) : Z * option error :=
  match v with
  | Number lit =>
    match ParseInt lit with
    | Some n => (n, None)
    | None => (old, Some (UnmarshalTypeError ("number " ++ lit) "int"))
    end
  | Null => (old, None)
  | _ => (old, Some (UnmarshalTypeError (describe v) "int"))
  end.

Section WithFloatConv.
Context `{FloatConv}.

Definition float64_into (v : value) (old : float64) : float64 * option error :=
  match v with
  | Number lit =>
    match ParseFloat lit with
    | Some f => (f, None)
    | None => (old, Some (UnmarshalTypeError ("number " ++ lit) "float64"))
    end
  | Null => (old, None)
  | _ => (old, Some (UnmarshalTypeError (describe v) "float64"))
  end.

Definition PositionReport_fields : list string :=
  ["UserID"; "Latitude"; "Longitude"].

Definition PositionReport_store (f : string) (v : value) (p : PositionReport) :
  PositionReport * option error :=
  if (f =? "UserID")%string then
    let '(n, e) := int_into v (UserID p) in
    ({| UserID := n; Latitude := Latitude p; Longitude := Longitude p |}, e)
  else if (f =? "Latitude")%string then
    let '(x, e) := float64_into v (Latitude p) in
    ({| UserID := UserID p; Latitude := x; Longitude := Longitude p |}, e)
  else
    let '(x, e) := float64_into v (Longitude p) in
    ({| UserID := UserID p; Latitude := Latitude p; Longitude := x |}, e).

Definition PositionReport_into : value -> PositionReport -> PositionReport * option error :=
  object_into "main.PositionReport" PositionReport_fields PositionReport_store.

Definition MessageBody_fields : list string := ["PositionReport"].

Definition MessageBody_store (f : string) (v : value) (b : MessageBody) :
  MessageBody * option error :=
  let '(p, e) := PositionReport_into v (body_PositionReport b) in
  ({| body_PositionReport := p |}, e).

(** The Go type of the anonymous struct of lines 28-30 as an error names it:
    the struct with its field and the field's tag, quoted. *)
Definition MessageBody_type : string :=
  "struct { PositionReport main.PositionReport "
  ++ String dquote
       ("json:"
        ++ String backslash
             (String dquote
                ("PositionReport"
                 ++ String backslash (String dquote (String dquote " }"))))).

Definition MessageBody_into : value -> MessageBody -> MessageBody * option error :=
  object_into MessageBody_type MessageBody_fields MessageBody_store.

Definition Message_fields : list string := ["MessageType"; "Message"].

Definition Message_store (f : string) (v : value) (m : Message) :
  Message * option error :=
  if (f =? "MessageType")%string then
    let '(s, e) := string_into v (MessageType m) in
    ({| MessageType := s; Message_Message := Message_Message m |}, e)
  else
    let '(b, e) := MessageBody_into v (Message_Message m) in
    ({| MessageType := MessageType m; Message_Message := b |}, e).

Definition Message_into : value -> Message -> Message * option error :=
  object_into "main.Message" Message_fields Message_store.

(** [json.Unmarshal(data, &message)] for a fresh [var message Message]. *)
Definition Unmarshal (data : string) : error + Message :=
  match parse data with
  | None => inl SyntaxError
  | Some v =>
    match Message_into v zero_Message with
    | (m, None) => inr m
    | (_, Some e) => inl e
    end
  end.

End WithFloatConv.

End decode.

(** ** encoding/json: [json.Marshal] of the subscribe message *)
Module encode.

Definition hex (n : Z) : ascii := if n <? 10 then chr (48 + n) else chr (87 + n).

Definition quoted (s : string) : string :=
  String json.dquote (s ++ String json.dquote EmptyString).

(** The body of a JSON string for [s], as the encoder writes it with HTML
    escaping on (the default of [json.Marshal]): quote and backslash are
    escaped, the control characters are written as [\b \f \n \r \t] or
    [\u00xx], the characters [<], [>] and [&] as [\u00xx], U+2028 and U+2029
    as [\u2028] and [\u2029], and a byte that is not UTF-8 as [\ufffd]. *)
Fixpoint string_body (fuel : nat) (s : string) : string :=
  match fuel with
  | O => EmptyString
  | S fuel' =>
    match s with
    | EmptyString => EmptyString
    | String c r =>
      let b := code c in
      if b <? 128 then
        (if (c =? json.dquote)%char || (c =? json.backslash)%char
         then String json.backslash (String c EmptyString)
         else if b =? 8 then "\b"
         else if b =? 12 then "\f"
         else if b =? 10 then "\n"
         else if b =? 13 then "\r"
         else if b =? 9 then "\t"
         else if (b <? 32) || (c =? "<")%char || (c =? ">")%char || (c =? "&")%char
         then "\u00" ++ String (hex (b / 16)) (String (hex (b mod 16)) EmptyString)
         else String c EmptyString)
        ++ string_body fuel' r
      else
        let '(rr, size) := utf8.DecodeRune s in
        if (rr =? utf8.RuneError) && (size =? 1)%nat
        then "\ufffd" ++ string_body fuel' r
        else if (rr =? 8232) || (rr =? 8233)
        then "\u202" ++ String (hex (rr mod 16)) (string_body fuel' (drop size s))
        else substring 0 size s ++ string_body fuel' (drop size s)
    end
  end.

Definition encode_string (s : string) : string :=
  quoted (string_body (String.length s) s).

(** A slice: its elements between brackets, separated by commas. *)
Definition encode_slice {A : Type} (enc : A -> string) (l : list A) : string :=
  "[" ++ String.concat "," (List.map enc l) ++ "]".

Section WithFloatConv.
Context `{FloatConv}.

(** [json.Marshal(subscribeMessage)]: the fields in the order of the struct,
    under the names of their tags.  A NaN or an infinity is refused with an
    [UnsupportedValueError]. *)
Definition Marshal (m : SubscribeMessage) : error + string :=
  if forallb (forallb (forallb float64_is_finite)) (BoundingBoxes m) then
    inr ("{" ++ quoted "APIKey" ++ ":" ++ encode_string (APIKey m)
         ++ "," ++ quoted "BoundingBoxes" ++ ":"
         ++ encode_slice (encode_slice (encode_slice AppendFloat)) (BoundingBoxes m)
         ++ "}")
  else inl UnsupportedValueError.

End WithFloatConv.

End encode.

(** ** kafka-go: messages, the writer and its balancer

    [kafka.Writer.WriteMessages] asks the writer's [Balancer] for the
    partition of each message.  The program sets the balancer
    [&kafka.LeastBytes{}] (line 107), which routes a message to the partition
    that has received the fewest bytes so far.  The balancer is a part of the
    library github.com/segmentio/kafka-go (balancer.go); its [Balance] method
    and its counters are embedded here as the library has them. *)
Module kafka.

Record Message : Type := {
  Key : string;
  Value : string
}.

(** The implementations of the [Balancer] interface that the program uses:
    [LeastBytes] only. *)
Variant balancer : Type :=
| LeastBytes.

Record Writer : Type := {
  Addr : string;
  Topic : string;
  Balancer : balancer
}.

Record leastBytesCounter : Type := {
  partition : Z;
  bytes : Z           (* uint64 *)
}.

(** The state of a [LeastBytes] value: its [counters] slice, nil at first. *)
Definition LeastBytes_state : Type := list leastBytesCounter.

Fixpoint insert_counter (c : leastBytesCounter) (cs : list leastBytesCounter) :
  list leastBytesCounter :=
  match cs with
  | [] => [c]
  | d :: cs' =>
    if partition c <? partition d then c :: cs else d :: insert_counter c cs'
  end.

(** [makeCounters]: one counter per partition, at zero, sorted by
    partition. *)
Definition makeCounters (partitions : list Z) : list leastBytesCounter :=
  fold_right insert_counter []
    (List.map (fun p => {| partition := p; bytes := 0 |}) partitions).

(** The loop of [Balance] over [counters[1:]]: [i] is the index in the tail;
    a counter strictly below the least seen so far takes its place. *)
Fixpoint least (tail : list leastBytesCounter) (i : nat) (minIndex : nat)
    (minBytes : Z) : nat :=
  match tail with
  | [] => minIndex
  | c :: tail' =>
    if bytes c <? minBytes then least tail' (S i) (S i) (bytes c)
    else least tail' (S i) minIndex minBytes
  end.

Fixpoint add_bytes (cs : list leastBytesCounter) (i : nat) (n : Z) :
  list leastBytesCounter :=
  match cs, i with
  | [], _ => []
  | c :: cs', O =>
    {| partition := partition c; bytes := (bytes c + n) mod 2 ^ 64 |} :: cs'
  | c :: cs', S i' => c :: add_bytes cs' i' n
  end.

(** The first lines of [Balance]: when the number of partitions has changed
    (at the first call too), the counters are made anew. *)
Definition counters_for (counters : LeastBytes_state) (partitions : list Z) :
  LeastBytes_state :=
  if (List.length partitions =? List.length counters)%nat then counters
  else makeCounters partitions.

(** [LeastBytes.Balance(msg, partitions...)]: the partition chosen and the
    counters after the call.  With no partition at all, [counters[0]] is out
    of range and Go panics: [None]. *)
Definition Balance (counters : LeastBytes_state) (msg : Message)
    (partitions : list Z) : option (Z * LeastBytes_state) :=
  let counters := counters_for counters partitions in
  match counters with
  | [] => None
  | c0 :: tail =>
    let minIndex := least tail 0%nat 0%nat (bytes c0) in
    Some (partition (nth minIndex counters c0),
          add_bytes counters minIndex (len (Key msg) + len (Value msg)))
  end.

(** The partitions of a topic with [n] partitions: [0 .. n-1]. *)
Definition partitions_of (n : positive) : list Z :=
  List.map Z.of_nat (List.seq 0 (Pos.to_nat n)).

End kafka.

(** ** The environment: events

    Every call the program makes out of its own code is an event; the
    answer of the environment is the event's result.  A Go [error] result
    is [option error], [None] for [nil]. *)

(** What [fmt.Printf] and [log.Printf] are given after the format. *)
Variant arg : Type :=
| argString (s : string)
| argInt (n : Z)
| argFloat (f : float64)
| argError (e : error)
| argRFC3339 (t : Z).   (* t.UTC().Format(time.RFC3339) of the time t *)

Variant aisE : Type -> Type :=
| time_Sleep (seconds : Z) : aisE unit
| time_Now : aisE Z
| os_Getenv (key : string) : aisE string
| log_Printf (format : string) (args : list arg) : aisE unit
| log_Fatal (err : error) : aisE unit
| fmt_Printf (format : string) (args : list arg) : aisE unit
| Dial (url : string) : aisE (option error)
| conn_Close : aisE unit
| conn_WriteMessage (messageType : Z) (data : string) : aisE (option error)
| conn_ReadMessage : aisE (error + string)
| WriteMessages (w : kafka.Writer) (msg : kafka.Message) : aisE (option error)
| writer_Close (w : kafka.Writer) : aisE unit.

(** ** The program (main.go, lines 33-116) *)

Definition newline : string := String (chr 10) EmptyString.

(** [websocket.TextMessage]. *)
Definition TextMessage : Z := 1.

Section Program.
Context `{FloatConv}.

(** Lines 40-45. *)
Definition subscribeMessage : SubscribeMessage :=
  {| APIKey := "4275544f465907fb8c57875dcc52425666683d75";
     BoundingBoxes :=
       [ [ [float64_of_Z (-180); float64_of_Z (-90)];
           [float64_of_Z 180; float64_of_Z 90] ] ] |}.

(** Lines 62-86: what one iteration of the loop does with the frame it has
    read.  The [continue] of line 65 ends the iteration. *)
Definition handle_frame (kafkaWriter : kafka.Writer) (messageJSON : string) :
  itree aisE unit :=
  match decode.Unmarshal messageJSON with
  | inl err =>
    ITree.trigger (log_Printf "failed to unmarshal message: %v" [argError err])
  | inr message =>
    if (MessageType message =? "PositionReport")%string then
      let aisMessage := body_PositionReport (Message_Message message) in
      now <- ITree.trigger time_Now;;
      ITree.trigger
        (fmt_Printf ("[%s] ShipId: %d Latitude: %f Longitude: %f" ++ newline)
           [argRFC3339 now; argInt (UserID aisMessage);
            argFloat (Latitude aisMessage); argFloat (Longitude aisMessage)]);;
      r <- ITree.trigger
             (WriteMessages kafkaWriter
                {| kafka.Key := Sprintf_d (UserID aisMessage);
                   kafka.Value := messageJSON |});;
      match r with
      | Some err =>
        ITree.trigger
          (log_Printf "failed to write message to kafka: %v" [argError err])
      | None => Ret tt
      end
    else Ret tt
  end.

(** Lines 57-86: one iteration of the loop.  It reads a frame and either
    asks for the next iteration ([inl tt]) or leaves the loop with the error
    that line 59 returns ([inr err]). *)
Definition iteration (kafkaWriter : kafka.Writer) : itree aisE (unit + error) :=
  r <- ITree.trigger conn_ReadMessage;;
  match r with
  | inl err => Ret (inr (Errorf "failed to read message: %w" err))
  | inr messageJSON =>
    handle_frame kafkaWriter messageJSON;;
    Ret (inl tt)
  end.

(** Lines 56-87: [for { ... }]. *)
Definition read_loop (kafkaWriter : kafka.Writer) : itree aisE error :=
  ITree.iter (fun _ : unit => iteration kafkaWriter) tt.

(** Lines 33-88.  The deferred [conn.Close()] runs when the function
    returns after a successful dial. *)
Definition connectAISStream (kafkaWriter : kafka.Writer) :
  itree aisE (option error) :=
  r <- ITree.trigger (Dial "wss://stream.aisstream.io/v0/stream");;
  match r with
  | Some err => Ret (Some (Errorf "failed to connect: %w" err))
  | None =>
    result <-
      match encode.Marshal subscribeMessage with
      | inl err => Ret (Some (Errorf "failed to marshal subscribe message: %w" err))
      | inr subscribeJSON =>
        r <- ITree.trigger (conn_WriteMessage TextMessage subscribeJSON);;
        match r with
        | Some err =>
          Ret (Some (Errorf "failed to send subscribe message: %w" err))
        | None =>
          err <- read_loop kafkaWriter;;
          Ret (Some err)
        end
      end;;
    ITree.trigger conn_Close;;
    Ret result
  end.

(** Lines 90-116.  The result is the exit status of the process:
    [log.Fatal] writes the error to the log and exits with status 1 (deferred
    calls do not run); a return from [main] exits with status 0 after the
    deferred [kafkaWriter.Close()]. *)
Definition main : itree aisE Z :=
  ITree.trigger (time_Sleep 10);;
  kafkaBroker <- ITree.trigger (os_Getenv "KAFKA_BROKER");;
  let kafkaBroker :=
    if (kafkaBroker =? EmptyString)%string then "localhost:9092" else kafkaBroker in
  kafkaTopic <- ITree.trigger (os_Getenv "KAFKA_TOPIC");;
  let kafkaTopic :=
    if (kafkaTopic =? EmptyString)%string then "ais-position-reports" else kafkaTopic in
  let kafkaWriter :=
    {| kafka.Addr := kafkaBroker;
       kafka.Topic := kafkaTopic;
       kafka.Balancer := kafka.LeastBytes |} in
  ITree.trigger
    (log_Printf "Starting AIS stream, publishing to Kafka broker: %s, topic: %s"
       [argString kafkaBroker; argString kafkaTopic]);;
  err <- connectAISStream kafkaWriter;;
  match err with
  | Some err =>
    ITree.trigger (log_Fatal err);;
    Ret 1
  | None =>
    ITree.trigger (writer_Close kafkaWriter);;
    Ret 0
  end.

End Program.

(** ** The environment: a world that answers the events

    A world holds what the environment will do (the process environment, the
    frames that will arrive and the error that ends them, what the broker
    will do with each write) and what the program has done so far (the
    [trace] of its calls, each with its answer, oldest first).

    The feed of a world is a finite list of frames followed by a read that
    fails, so a run against a world reaches the failed read.  A feed that
    never fails is not a world: on such a feed the loop of lines 56-87 goes
    on for ever, and of it the properties say what the program does frame
    after frame, not that it ends. *)

(** What the broker side does with one [WriteMessages] call. *)
Variant outcome : Type :=
| Delivered                (* a partition is chosen, the record is written *)
| NotAssigned (e : error)  (* the call fails before a partition is chosen *)
| NotWritten (e : error).  (* a partition is chosen, the write fails *)

Variant call : Type :=
| Slept (seconds : Z)
| ClockRead (t : Z)
| EnvRead (key value : string)
| Logged (format : string) (args : list arg)
| LoggedFatal (err : error)
| Printed (format : string) (args : list arg)
| Dialed (url : string) (r : option error)
| ConnClosed
| Sent (messageType : Z) (data : string) (r : option error)
| Received (r : error + string)
| Wrote (w : kafka.Writer) (msg : kafka.Message)
        (assigned : option Z) (r : option error)
| WriterClosed (w : kafka.Writer).

Record Env : Type := {
  environ : list (string * string);  (* the process environment *)
  clock : Z;                         (* what time.Now answers *)
  dial_error : option error;         (* the answer to Dial *)
  send_error : option error;         (* the answer to conn.WriteMessage *)
  read_error : error;                (* how the stream of frames ends *)
  numPartitions : positive           (* the partitions of the topic *)
}.

Record World : Type := {
  env : Env;
  inbound : list string;             (* the frames still to arrive *)
  broker : list outcome;             (* the outcomes of the writes to come *)
  counters : kafka.LeastBytes_state; (* the state of the writer's balancer *)
  trace : list call
}.

(** [os.Getenv]: the value of the variable, empty when it is not set. *)
Fixpoint getenv (environ : list (string * string)) (key : string) : string :=
  match environ with
  | [] => EmptyString
  | (k, v) :: rest => if (k =? key)%string then v else getenv rest key
  end.

Definition record (c : call) (w : World) : World :=
  {| env := env w; inbound := inbound w; broker := broker w;
     counters := counters w; trace := trace w ++ [c] |}.

(** The next frame, if one is left. *)
Definition receive (w : World) : World * (error + string) :=
  match inbound w with
  | messageJSON :: rest =>
    (record (Received (inr messageJSON))
       {| env := env w; inbound := rest; broker := broker w;
          counters := counters w; trace := trace w |},
     inr messageJSON)
  | [] => (record (Received (inl (read_error (env w)))) w, inl (read_error (env w)))
  end.

(** [WriteMessages] with one message: the next outcome of the broker (a
    delivery, once the list is used up); the partition is the balancer's.
    The branch without a partition is never taken: a topic has a partition
    ([numPartitions] is positive), so [Balance] answers. *)
Definition write (kw : kafka.Writer) (msg : kafka.Message) (w : World) :
  World * option error :=
  let o := hd Delivered (broker w) in
  let w1 := {| env := env w; inbound := inbound w; broker := tl (broker w);
               counters := counters w; trace := trace w |} in
  match o with
  | NotAssigned e => (record (Wrote kw msg None (Some e)) w1, Some e)
  | _ =>
    match
      match kafka.Balancer kw with
      | kafka.LeastBytes =>
        kafka.Balance (counters w) msg (kafka.partitions_of (numPartitions (env w)))
      end
    with
    | None => (record (Wrote kw msg None (Some (Err "no partition"))) w1,
               Some (Err "no partition"))
    | Some (p, cs) =>
      let w2 := {| env := env w; inbound := inbound w; broker := tl (broker w);
                   counters := cs; trace := trace w |} in
      match o with
      | NotWritten e => (record (Wrote kw msg (Some p) (Some e)) w2, Some e)
      | _ => (record (Wrote kw msg (Some p) None) w2, None)
      end
    end
  end.

Definition handle {T : Type} (e : aisE T) (w : World) : World * T :=
  match e in aisE T return World * T with
  | time_Sleep d => (record (Slept d) w, tt)
  | time_Now => (record (ClockRead (clock (env w))) w, clock (env w))
  | os_Getenv key =>
    (record (EnvRead key (getenv (environ (env w)) key)) w,
     getenv (environ (env w)) key)
  | log_Printf format args => (record (Logged format args) w, tt)
  | log_Fatal err => (record (LoggedFatal err) w, tt)
  | fmt_Printf format args => (record (Printed format args) w, tt)
  | Dial url => (record (Dialed url (dial_error (env w))) w, dial_error (env w))
  | conn_Close => (record ConnClosed w, tt)
  | conn_WriteMessage messageType data =>
    (record (Sent messageType data (send_error (env w))) w, send_error (env w))
  | conn_ReadMessage => receive w
  | WriteMessages kw msg => write kw msg w
  | writer_Close kw => (record (WriterClosed kw) w, tt)
  end.

Definition aisH : aisE ~> Monads.stateT World (itree void1) :=
  fun T e w => Ret (handle e w).

(** The program [t] run in the world [w]: it ends in [Ret (w', r)] when [t]
    returns [r] and leaves the world [w']. *)
Definition run {R : Type} (t : itree aisE R) (w : World) : itree void1 (World * R) :=
  interp_state aisH t w.

(** ** strconv on [float64]: an instance of [FloatConv]

    Decimal text to the nearest [float64] and back in the shortest digits
    that read back, both by exact integer arithmetic.  The theorems below
    hold for every [FloatConv]; this instance runs the program on concrete
    frames. *)
Module strconv.

(** [m * 10^e10] rounded to the nearest binary64, ties to even; a value
    past the largest float is an infinity.  Below one, the quotient is taken
    to 62 bits or more, with one more bit that says whether it is exact. *)
Definition round_decimal (neg : bool) (m e10 : Z) : float64 :=
  if m =? 0 then S754_zero neg
  else if 0 <=? e10 then
    binary_normalize 53 1024 (cond_Zopp neg (m * 10 ^ e10)) 0 neg
  else
    let d := 10 ^ (- e10) in
    let s := Z.max 0 (Z.log2 d + 64 - Z.log2 m) in
    let q := (m * 2 ^ s) / d in
    let sticky := if (m * 2 ^ s) mod d =? 0 then 0 else 1 in
    binary_normalize 53 1024 (cond_Zopp neg (2 * q + sticky)) (- s - 1) neg.

(** [strconv.ParseFloat(lit, 64)] on a JSON number literal: [None] for a
    number out of range. *)
Definition ParseFloat64 (lit : string) : option float64 :=
  let '(neg, s0) :=
    match lit with
    | String "-" r => (true, r)
    | _ => (false, lit)
    end in
  let '(ip, s1) := json.scan_digits s0 in
  let '(fp, s2) :=
    match s1 with
    | String "." r => json.scan_digits r
    | _ => (EmptyString, s1)
    end in
  let ex :=
    match s2 with
    | String _ (String "-" r) => - digits_value 0 r
    | String _ (String "+" r) => digits_value 0 r
    | String _ r => digits_value 0 r
    | EmptyString => 0
    end in
  let m := digits_value 0 (ip ++ fp) in
  let e10 := ex - len fp in
  if m =? 0 then Some (S754_zero neg)
  else if 310 <? e10 + len (Sprintf_d m) then None
  else if e10 + len (Sprintf_d m) <? - 330 then Some (S754_zero neg)
  else
    match round_decimal neg m e10 with
    | S754_infinity _ => None
    | f => Some f
    end.

Definition same_float (f g : float64) : bool :=
  match f, g with
  | S754_finite s m e, S754_finite s' m' e' =>
    Bool.eqb s s' && (m =? m')%positive && (e =? e')
  | _, _ => false
  end.

(** [10^(x-1) <= num/den < 10^x]. *)
Fixpoint magnitude (fuel : nat) (num den x : Z) : Z :=
  match fuel with
  | O => x
  | S fuel' =>
    if num <? den then magnitude fuel' (10 * num) den (x - 1) else x
  end.

Fixpoint strip_zeros (fuel : nat) (d p : Z) : Z * Z :=
  match fuel with
  | O => (d, p)
  | S fuel' => if d mod 10 =? 0 then strip_zeros fuel' (d / 10) (p + 1) else (d, p)
  end.

(** The shortest [d * 10^p] that reads back as [f = m * 2^e], the nearest to
    [f] among those of its length: [n] digits are tried for [n = 1, 2, ...]. *)
Fixpoint shortest (fuel : nat) (n : Z) (s : bool) (m : positive) (e x : Z) : Z * Z :=
  let f := S754_finite s m e in
  let num := if 0 <=? e then Zpos m * 2 ^ e else Zpos m in
  let den := if 0 <=? e then 1 else 2 ^ (- e) in
  let p := x - n in
  let num' := if p <? 0 then num * 10 ^ (- p) else num in
  let den' := if p <? 0 then den else den * 10 ^ p in
  let lo := num' / den' in
  let r := num' mod den' in
  let lo_ok := (0 <? lo) && same_float (round_decimal s lo p) f in
  let hi_ok := same_float (round_decimal s (lo + 1) p) f in
  match fuel with
  | O => (lo, p)
  | S fuel' =>
    if lo_ok && hi_ok then (if 2 * r <=? den' then (lo, p) else (lo + 1, p))
    else if lo_ok then (lo, p)
    else if hi_ok then (lo + 1, p)
    else shortest fuel' (n + 1) s m e x
  end.

Fixpoint zeros (n : nat) : string :=
  match n with
  | O => EmptyString
  | S n' => String "0" (zeros n')
  end.

(** The float encoder of [encoding/json]: [strconv.AppendFloat(b, f, 'f', -1,
    64)], or the format ['e'] below [1e-6] and from [1e21] on, where an
    exponent [e-0x] is written [e-x]. *)
Definition AppendFloat64 (f : float64) : string :=
  match f with
  | S754_zero s => if s then "-0" else "0"
  | S754_finite s m e =>
    let num := if 0 <=? e then Zpos m * 2 ^ e else Zpos m in
    let den := if 0 <=? e then 1 else 2 ^ (- e) in
    let x := if num / den =? 0 then magnitude 400 (10 * num) den 0
             else len (Sprintf_d (num / den)) in
    let '(d, p) := shortest 17 1 s m e x in
    let '(d, p) := strip_zeros 400 d p in
    let ds := Sprintf_d d in
    let dp := len ds + p in
    (if s then "-" else EmptyString) ++
    (if (dp <? -5) || (21 <? dp) then
       substring 0 1 ds
       ++ (if 1 <? len ds then String "." (drop 1 ds) else EmptyString)
       ++ "e" ++ (if dp - 1 <? 0 then "-" else "+") ++ Sprintf_d (Z.abs (dp - 1))
     else if dp <=? 0 then "0." ++ zeros (Z.to_nat (- dp)) ++ ds
     else if len ds <=? dp then ds ++ zeros (Z.to_nat (dp - len ds))
     else substring 0 (Z.to_nat dp) ds ++ String "." (drop (Z.to_nat dp) ds))
  | S754_infinity s => if s then "-Inf" else "+Inf"
  | S754_nan => "NaN"
  end.

End strconv.

#[export] Instance strconv_FloatConv : FloatConv :=
  {| ParseFloat := strconv.ParseFloat64; AppendFloat := strconv.AppendFloat64 |}.

(** ** Running the program on a concrete world

    [exec] runs a tree against the world for at most [fuel] steps; it is
    [run] computed ([exec_sound] below). *)
Fixpoint exec {R : Type} (fuel : nat) (t : itree aisE R) (w : World) :
  option (World * R) :=
  match fuel with
  | O => None
  | S n =>
    match observe t with
    | RetF r => Some (w, r)
    | TauF t' => exec n t' w
    | VisF e k => exec n (k (snd (handle e w))) (fst (handle e w))
    end
  end.

(** ** Reading a trace *)

(** The [WriteMessages] calls of a trace, in order: the writer and the
    record of each. *)
Definition writes (tr : list call) : list (kafka.Writer * kafka.Message) :=
  flat_map
    (fun c => match c with
              | Wrote kw msg _ _ => [(kw, msg)]
              | _ => []
              end) tr.

(** The partitions that the records of a trace were assigned, with the key
    of each. *)
Definition assignments (tr : list call) : list (string * Z) :=
  flat_map
    (fun c => match c with
              | Wrote _ msg (Some p) _ => [(kafka.Key msg, p)]
              | _ => []
              end) tr.

(** The error a [WriteMessages] call returns under an outcome. *)
Definition fails (o : outcome) : option error :=
  match o with
  | Delivered => None
  | NotAssigned e | NotWritten e => Some e
  end.

(** Whether a partition is chosen under an outcome. *)
Definition assigns (o : outcome) : bool :=
  match o with
  | NotAssigned _ => false
  | Delivered | NotWritten _ => true
  end.

(** The calls of the read loop while it goes on: successful reads, the
    clock, prints, log lines and writes through [kw]; no dial, no send, no
    failed read, no close, no fatal log. *)
Definition streaming_call (kw : kafka.Writer) (c : call) : Prop :=
  match c with
  | Received (inr _) | ClockRead _ | Printed _ _ | Logged _ _ => True
  | Wrote kw' _ _ _ => kw' = kw
  | _ => False
  end.

(** The world after lines 69-85 for the position report [p] of the frame
    [messageJSON]: the clock is read, the line is printed, the record is
    written once, and a failed write is logged. *)
Definition forward (kw : kafka.Writer) (messageJSON : string)
    (p : PositionReport) (w : World) : World :=
  let w1 := record (ClockRead (clock (env w))) w in
  let w2 :=
    record
      (Printed ("[%s] ShipId: %d Latitude: %f Longitude: %f" ++ newline)
         [argRFC3339 (clock (env w)); argInt (UserID p);
          argFloat (Latitude p); argFloat (Longitude p)]) w1 in
  let wr :=
    write kw {| kafka.Key := Sprintf_d (UserID p); kafka.Value := messageJSON |} w2 in
  match snd wr with
  | Some err =>
    record (Logged "failed to write message to kafka: %v" [argError err]) (fst wr)
  | None => fst wr
  end.

(** The world once the frame [messageJSON] has been read, [rest] being the
    frames still to arrive. *)
Definition arrived (messageJSON : string) (rest : list string) (w : World) : World :=
  {| env := env w; inbound := rest; broker := broker w; counters := counters w;
     trace := trace w ++ [Received (inr messageJSON)] |}.

(** The writer [main] builds from the process environment (lines 94-108). *)
Definition writer_of (e : Env) : kafka.Writer :=
  {| kafka.Addr :=
       if (getenv (environ e) "KAFKA_BROKER" =? EmptyString)%string then "localhost:9092"
       else getenv (environ e) "KAFKA_BROKER";
     kafka.Topic :=
       if (getenv (environ e) "KAFKA_TOPIC" =? EmptyString)%string then "ais-position-reports"
       else getenv (environ e) "KAFKA_TOPIC";
     kafka.Balancer := kafka.LeastBytes |}.

(** The calls of [main] before it dials (lines 92-111). *)
Definition startup (e : Env) : list call :=
  [ Slept 10;
    EnvRead "KAFKA_BROKER" (getenv (environ e) "KAFKA_BROKER");
    EnvRead "KAFKA_TOPIC" (getenv (environ e) "KAFKA_TOPIC");
    Logged "Starting AIS stream, publishing to Kafka broker: %s, topic: %s"
      [argString (kafka.Addr (writer_of e)); argString (kafka.Topic (writer_of e))] ].

Definition feed_url : string := "wss://stream.aisstream.io/v0/stream".

Section ProgramFacts.
Context `{FloatConv}.

(** The subscribe frame of line 47. *)
Definition subscribeJSON : string :=
  match encode.Marshal subscribeMessage with
  | inr data => data
  | inl _ => EmptyString
  end.

(** The records an iteration writes through [kw] for the frame it reads. *)
Definition records_of (kw : kafka.Writer) (f : string) :
  list (kafka.Writer * kafka.Message) :=
  match decode.Unmarshal f with
  | inl _ => []
  | inr m =>
    if (MessageType m =? "PositionReport")%string then
      [(kw, {| kafka.Key := Sprintf_d (UserID (body_PositionReport (Message_Message m)));
               kafka.Value := f |})]
    else []
  end.

End ProgramFacts.

(** The world when [main] is about to dial. *)
Definition started (w : World) : World :=
  {| env := env w; inbound := inbound w; broker := broker w;
     counters := counters w; trace := trace w ++ startup (env w) |}.

(** ** Frames and values the properties speak of *)
Module shape.

Import json decode.

(** A member whose key names no field of the struct. *)
Definition unknown (fields : list string) (kv : string * value) : bool :=
  match find_field fields (fst kv) with
  | None => true
  | Some _ => false
  end.

(** A member whose key names the field [field]. *)
Definition names (field : string) (fields : list string) (kv : string * value) : bool :=
  match find_field fields (fst kv) with
  | Some f => (f =? field)%string
  | None => false
  end.

(** A [PositionReport] payload with none of its fields: [null], or an
    object in which no key names [UserID], [Latitude] or [Longitude]. *)
Definition empty_report (v : value) : bool :=
  match v with
  | Null => true
  | Object ms => forallb (unknown PositionReport_fields) ms
  | _ => false
  end.

(** A [Message] payload without a position report: [null], or an object in
    which each member is unknown or is an empty [PositionReport]. *)
Definition empty_body (v : value) : bool :=
  match v with
  | Null => true
  | Object ms =>
    forallb (fun kv => unknown MessageBody_fields kv || empty_report (snd kv)) ms
  | _ => false
  end.

Definition is_PositionReport (v : value) : bool :=
  match v with
  | Str s => (s =? "PositionReport")%string
  | _ => false
  end.

(** A JSON object with [MessageType] equal to ["PositionReport"] whose
    nested payload is absent or empty; unknown members may stand anywhere. *)
Definition bare_position_report (v : value) : bool :=
  match v with
  | Object ms =>
    forallb
      (fun kv =>
         unknown Message_fields kv
         || (names "MessageType" Message_fields kv && is_PositionReport (snd kv))
         || (names "Message" Message_fields kv && empty_body (snd kv))) ms
    && existsb (names "MessageType" Message_fields) ms
  | _ => false
  end.

(** An object without the members that name no field of the struct; [sub]
    does the same inside the member of each field. *)
Definition prune_object (fields : list string) (sub : string -> value -> value)
    (v : value) : value :=
  match v with
  | Object ms =>
    Object
      (flat_map
         (fun kv =>
            match find_field fields (fst kv) with
            | Some f => [(fst kv, sub f (snd kv))]
            | None => []
            end) ms)
  | _ => v
  end.

Definition prune_report : value -> value :=
  prune_object PositionReport_fields (fun _ x => x).

Definition prune_body : value -> value :=
  prune_object MessageBody_fields (fun _ x => prune_report x).

(** A frame's value with every unknown member removed, at the three levels
    of the [Message] struct. *)
Definition prune : value -> value :=
  prune_object Message_fields
    (fun f x => if (f =? "Message")%string then prune_body x else x).

End shape.

(** The invariant of a subscribe request in the words of the specification:
    at least one bounding box; each box a pair of corners, each corner a
    latitude and a longitude; latitudes within [-90, 90] and longitudes
    within [-180, 180]. *)
Module SubscribeRequest.

Definition at_least_one_box (m : SubscribeMessage) : bool :=
  match BoundingBoxes m with
  | [] => false
  | _ :: _ => true
  end.

Definition pair_of_corners (box : list (list float64)) : bool :=
  match box with
  | [[_; _]; [_; _]] => true
  | _ => false
  end.

Definition valid_latitude (x : float64) : bool :=
  SFleb (float64_of_Z (-90)) x && SFleb x (float64_of_Z 90).

Definition valid_longitude (x : float64) : bool :=
  SFleb (float64_of_Z (-180)) x && SFleb x (float64_of_Z 180).

Definition corner_in_range (corner : list float64) : bool :=
  match corner with
  | [lat; lon] => valid_latitude lat && valid_longitude lon
  | _ => false
  end.

Definition invariant (m : SubscribeMessage) : bool :=
  at_least_one_box m
  && forallb pair_of_corners (BoundingBoxes m)
  && forallb (forallb corner_in_range) (BoundingBoxes m).

End SubscribeRequest.

(** ** Concrete frames and worlds *)

(** A frame written with ['] for the double quote. *)
Fixpoint frame (s : string) : string :=
  match s with
  | EmptyString => EmptyString
  | String c r => String (if (c =? "'")%char then json.dquote else c) (frame r)
  end.

Definition frame_report : string :=
  frame "{'MessageType':'PositionReport','Message':{'PositionReport':{'UserID':367123456,'Latitude':51.5,'Longitude':-0.12}}}".

Definition frame_static : string :=
  frame "{'MessageType':'ShipStaticData','Message':{}}".

Definition frame_truncated : string := frame "{'MessageType':".

Definition frame_empty_report : string :=
  frame "{'MessageType':'PositionReport','Message':{}}".

Definition frame_extra_fields : string :=
  frame "{'MetaData':{'MMSI':1},'MessageType':'PositionReport','Message':{'PositionReport':{'Sog':0.5}}}".

(** A world at the start of the process: the given process environment,
    partitions, frames and broker outcomes; the dial and the subscribe
    succeed, the stream ends with an end-of-file error; the balancer is
    fresh and nothing has been done yet. *)
Definition world (environ : list (string * string)) (partitions : positive)
    (frames : list string) (outcomes : list outcome) : World :=
  {| env := {| environ := environ; clock := 1761782400;
               dial_error := None; send_error := None;
               read_error := Err "EOF"; numPartitions := partitions |};
     inbound := frames; broker := outcomes; counters := []; trace := [] |}.

(** The same world, but the dial is refused. *)
Definition world_refused (frames : list string) : World :=
  {| env := {| environ := []; clock := 1761782400;
               dial_error := Some (Err "connection refused"); send_error := None;
               read_error := Err "EOF"; numPartitions := 1 |};
     inbound := frames; broker := []; counters := []; trace := [] |}.

(** The same world, but the subscribe frame cannot be sent. *)
Definition world_mute (frames : list string) : World :=
  {| env := {| environ := []; clock := 1761782400;
               dial_error := None; send_error := Some (Err "broken pipe");
               read_error := Err "EOF"; numPartitions := 1 |};
     inbound := frames; broker := []; counters := []; trace := [] |}.

Definition sample_writer : kafka.Writer :=
  {| kafka.Addr := "localhost:9092"; kafka.Topic := "ais-position-reports";
     kafka.Balancer := kafka.LeastBytes |}.

(** The message a frame decodes to ([zero_Message] for a frame that does
    not decode). *)
Definition decoded `{FloatConv} (f : string) : Message :=
  match decode.Unmarshal f with
  | inr m => m
  | inl _ => zero_Message
  end.

(** The value a frame parses to ([Null] for a frame that does not parse). *)
Definition parsed (f : string) : json.value :=
  match json.parse f with
  | Some v => v
  | None => json.Null
  end.

(** The calls of [main] once it has started: the process environment is
    not read again, and every write goes through [kw]. *)
Definition later_call (kw : kafka.Writer) (c : call) : Prop :=
  match c with
  | EnvRead _ _ => False
  | Wrote kw' _ _ _ => kw' = kw
  | _ => True
  end.

(** ** Three sentences of the specification, as they are written

    Each is stated here for the program as it is; the properties below show
    where the program departs from it. *)


(** Configuration: the records of a run of [main] are written to the broker
    named by [BROKER_ADDRESS] and to the topic named by [TOPIC_NAME], or to
    the defaults when a variable is not set. *)
Definition configured_by_BROKER_ADDRESS_and_TOPIC_NAME `{FloatConv} (w : World) : Prop :=
  forall (w' : World) (status : Z) (kw : kafka.Writer) (msg : kafka.Message)
         (a : option Z) (r : option error),
    run main w ≈ Ret (w', status) ->
    In (Wrote kw msg a r) (trace w') ->
    kafka.Addr kw =
      (if (getenv (environ (env w)) "BROKER_ADDRESS" =? EmptyString)%string
       then "localhost:9092" else getenv (environ (env w)) "BROKER_ADDRESS") /\
    kafka.Topic kw =
      (if (getenv (environ (env w)) "TOPIC_NAME" =? EmptyString)%string
       then "ais-position-reports" else getenv (environ (env w)) "TOPIC_NAME").

(** Silent drop: the iteration that reads the frame [f] writes no record. *)
Definition dropped_silently `{FloatConv} (f : string) : Prop :=
  forall (kw : kafka.Writer) (w w' : World) (rest : list string) (r : unit + error),
    inbound w = f :: rest ->
    run (iteration kw) w ≈ Ret (w', r) ->
    writes (trace w') = writes (trace w).

(** ** The shape of a run *)

Section Shape.
Context `{FloatConv}.

(** The world after the iteration that reads the frame [f] (lines 57-86). *)
Definition after_frame (kw : kafka.Writer) (w : World) (f : string) : World :=
  let w1 := arrived f (tl (inbound w)) w in
  match decode.Unmarshal f with
  | inl err => record (Logged "failed to unmarshal message: %v" [argError err]) w1
  | inr m =>
    if (MessageType m =? "PositionReport")%string
    then forward kw f (body_PositionReport (Message_Message m)) w1
    else w1
  end.

(** The line of lines 70-75 for a position report, printed at the time
    [now]. *)
Definition printed_line (now : Z) (p : PositionReport) : call :=
  Printed ("[%s] ShipId: %d Latitude: %f Longitude: %f" ++ newline)
    [argRFC3339 now; argInt (UserID p); argFloat (Latitude p); argFloat (Longitude p)].

(** The record of lines 79-82 for the frame [f] and its position report. *)
Definition record_for (f : string) (p : PositionReport) : kafka.Message :=
  {| kafka.Key := Sprintf_d (UserID p); kafka.Value := f |}.

(** What the program does with a frame once it has read it, in one of four
    shapes: a frame that does not decode is logged; a frame of another type
    leaves no call; a position report is printed and written; and when the
    write returns an error, the error is logged. *)
Inductive block (kw : kafka.Writer) (now : Z) (f : string) : list call -> Prop :=
| block_undecodable (err : error) :
    decode.Unmarshal f = inl err ->
    block kw now f [Logged "failed to unmarshal message: %v" [argError err]]
| block_other (m : Message) :
    decode.Unmarshal f = inr m ->
    MessageType m <> "PositionReport" ->
    block kw now f []
| block_published (m : Message) (a : option Z) :
    decode.Unmarshal f = inr m ->
    MessageType m = "PositionReport" ->
    block kw now f
      [ClockRead now;
       printed_line now (body_PositionReport (Message_Message m));
       Wrote kw (record_for f (body_PositionReport (Message_Message m))) a None]
| block_failed (m : Message) (a : option Z) (e : error) :
    decode.Unmarshal f = inr m ->
    MessageType m = "PositionReport" ->
    block kw now f
      [ClockRead now;
       printed_line now (body_PositionReport (Message_Message m));
       Wrote kw (record_for f (body_PositionReport (Message_Message m))) a (Some e);
       Logged "failed to write message to kafka: %v" [argError e]].

(** The calls of the loop for the frames [fs], frame after frame: the read
    of each frame, then its block. *)
Inductive blocks (kw : kafka.Writer) (now : Z) : list string -> list call -> Prop :=
| blocks_nil : blocks kw now [] []
| blocks_cons (f : string) (fs : list string) (b cs : list call) :
    block kw now f b ->
    blocks kw now fs cs ->
    blocks kw now (f :: fs) (Received (inr f) :: b ++ cs).

End Shape.


(** ** The load of a partition

    What the records of a trace have brought to each partition, read off the
    trace alone. *)

(** The bytes of a record as the balancer counts them: key and value. *)
Definition size (msg : kafka.Message) : Z :=
  len (kafka.Key msg) + len (kafka.Value msg).







(** * Properties *)

(** ** Running trees *)

Lemma run_ret {R : Type} (r : R) (w : World) : run (Ret r) w ≅ Ret (w, r).
Proof. unfold run. rewrite interp_state_ret. reflexivity. Qed.

Lemma run_trigger {T : Type} (e : aisE T) (w : World) :
  run (ITree.trigger e) w ≈ Ret (handle e w).
Proof. unfold run. rewrite interp_state_trigger. reflexivity. Qed.

Lemma run_bind {A B : Type} (t : itree aisE A) (k : A -> itree aisE B)
    (w w1 : World) (a : A) :
  run t w ≈ Ret (w1, a) -> run (ITree.bind t k) w ≈ run (k a) w1.
Proof.
  intros Ht. unfold run in *.
  rewrite interp_state_bind, Ht, bind_ret_l. reflexivity.
Qed.

Lemma run_trigger_bind {T B : Type} (e : aisE T) (k : T -> itree aisE B)
    (w : World) :
  run (ITree.bind (ITree.trigger e) k) w
  ≈ run (k (snd (handle e w))) (fst (handle e w)).
Proof.
  apply run_bind. rewrite run_trigger. destruct (handle e w); reflexivity.
Qed.

Lemma run_tau {R : Type} (t : itree aisE R) (w : World) : run (Tau t) w ≈ run t w.
Proof. unfold run. rewrite interp_state_tau, tau_eutt. reflexivity. Qed.

(** One call of the program: the handler answers and the run goes on. *)
Ltac run_step := rewrite run_trigger_bind; cbn [handle fst snd].

(** A run has one result. *)
Lemma run_deterministic {R : Type} (t : itree aisE R) (w w1 w2 : World) (r1 r2 : R) :
  run t w ≈ Ret (w1, r1) -> run t w ≈ Ret (w2, r2) -> w1 = w2 /\ r1 = r2.
Proof.
  intros H1 H2. rewrite H1 in H2. apply eutt_inv_Ret in H2.
  injection H2 as -> ->. split; reflexivity.
Qed.

Lemma exec_sound {R : Type} (fuel : nat) :
  forall (t : itree aisE R) (w w' : World) (r : R),
    exec fuel t w = Some (w', r) -> run t w ≈ Ret (w', r).
Proof.
  induction fuel as [|n IH]; intros t w w' r E; cbn in E; [discriminate|].
  unfold run. rewrite (itree_eta t). revert E.
  destruct (observe t) as [r0|t'|X e k]; intros E.
  - injection E as <- <-. rewrite interp_state_ret. reflexivity.
  - rewrite interp_state_tau, tau_eutt. apply IH, E.
  - rewrite interp_state_vis.
    change (aisH X e w) with (Ret (handle e w) : itree void1 (World * X)).
    rewrite bind_ret_l, tau_eutt. apply IH, E.
Qed.

(** ** The loop *)

Section Loop.
Context `{FloatConv}.
Variable kw : kafka.Writer.

Lemma loop_continue (w w' : World) :
  run (iteration kw) w ≈ Ret (w', inl tt) ->
  run (read_loop kw) w ≈ run (read_loop kw) w'.
Proof.
  intros Hi. unfold read_loop at 1. rewrite unfold_iter.
  rewrite (run_bind _ _ _ _ _ Hi). apply run_tau.
Qed.

Lemma loop_exit (w w' : World) (e : error) :
  run (iteration kw) w ≈ Ret (w', inr e) ->
  run (read_loop kw) w ≈ Ret (w', e).
Proof.
  intros Hi. unfold read_loop. rewrite unfold_iter.
  rewrite (run_bind _ _ _ _ _ Hi). rewrite run_ret. reflexivity.
Qed.

Lemma frame_decode_failure (f : string) (err : error) (w : World) :
  decode.Unmarshal f = inl err ->
  run (handle_frame kw f) w
  ≈ Ret (record (Logged "failed to unmarshal message: %v" [argError err]) w, tt).
Proof.
  intros Hd. unfold handle_frame. rewrite Hd. apply run_trigger.
Qed.

Lemma frame_other_type (f : string) (m : Message) (w : World) :
  decode.Unmarshal f = inr m ->
  MessageType m <> "PositionReport" ->
  run (handle_frame kw f) w ≈ Ret (w, tt).
Proof.
  intros Hd Ht. unfold handle_frame. rewrite Hd.
  apply String.eqb_neq in Ht. rewrite Ht. rewrite run_ret. reflexivity.
Qed.

Lemma frame_position_report (f : string) (m : Message) (w : World) :
  decode.Unmarshal f = inr m ->
  MessageType m = "PositionReport" ->
  run (handle_frame kw f) w
  ≈ Ret (forward kw f (body_PositionReport (Message_Message m)) w, tt).
Proof.
  intros Hd Ht. unfold handle_frame. rewrite Hd.
  apply String.eqb_eq in Ht. rewrite Ht.
  run_step.
  run_step.
  run_step.
  unfold forward. cbn zeta.
  destruct (write kw _ _) as [w3 [e|]]; cbn [fst snd].
  - apply run_trigger.
  - rewrite run_ret. reflexivity.
Qed.

Lemma iteration_read_failure (w : World) :
  inbound w = [] ->
  run (iteration kw) w
  ≈ Ret (record (Received (inl (read_error (env w)))) w,
         inr (Errorf "failed to read message: %w" (read_error (env w)))).
Proof.
  intros Hin. unfold iteration. rewrite run_trigger_bind.
  cbn [handle]. unfold receive. rewrite Hin. cbn [fst snd].
  rewrite run_ret. reflexivity.
Qed.

Lemma iteration_frame (w w' : World) (f : string) (rest : list string) :
  inbound w = f :: rest ->
  run (handle_frame kw f) (arrived f rest w) ≈ Ret (w', tt) ->
  run (iteration kw) w ≈ Ret (w', inl tt).
Proof.
  intros Hin Hf. unfold iteration. rewrite run_trigger_bind.
  cbn [handle]. unfold receive. rewrite Hin. cbn [fst snd].
  change (record (Received (inr f)) _) with (arrived f rest w).
  rewrite (run_bind _ _ _ _ _ Hf). rewrite run_ret. reflexivity.
Qed.

End Loop.

(** ** The writer *)

Lemma insert_counter_length (c : kafka.leastBytesCounter) (cs : list kafka.leastBytesCounter) :
  List.length (kafka.insert_counter c cs) = S (List.length cs).
Proof.
  induction cs as [|d cs IH]; cbn; [reflexivity|].
  destruct (kafka.partition c <? kafka.partition d); cbn; congruence.
Qed.

Lemma makeCounters_length (ps : list Z) :
  List.length (kafka.makeCounters ps) = List.length ps.
Proof.
  unfold kafka.makeCounters. induction ps as [|p ps IH]; cbn; [reflexivity|].
  rewrite insert_counter_length. congruence.
Qed.

(** With a partition to choose from, [Balance] does not panic. *)
Lemma Balance_some (cs : kafka.LeastBytes_state) (msg : kafka.Message) (ps : list Z) :
  ps <> [] -> exists p cs', kafka.Balance cs msg ps = Some (p, cs').
Proof.
  intros Hps. unfold kafka.Balance, kafka.counters_for.
  destruct (List.length ps =? List.length cs)%nat eqn:El.
  - apply Nat.eqb_eq in El. destruct cs as [|c0 tl].
    + destruct ps; [congruence | discriminate].
    + eauto.
  - pose proof (makeCounters_length ps) as Hl.
    destruct (kafka.makeCounters ps) as [|c0 tl].
    + destruct ps; [congruence | discriminate].
    + eauto.
Qed.

Lemma partitions_of_nonempty (n : positive) : kafka.partitions_of n <> [].
Proof.
  unfold kafka.partitions_of. pose proof (Pos2Nat.is_pos n) as Hn.
  destruct (Pos.to_nat n); [lia | discriminate].
Qed.

(** One [WriteMessages] call: it is recorded once in the trace, it uses up
    one outcome of the broker, and it returns the error of that outcome. *)
Lemma write_spec (kw : kafka.Writer) (msg : kafka.Message) (w : World) :
  exists a cs,
    write kw msg w =
    ({| env := env w; inbound := inbound w; broker := tl (broker w);
        counters := cs;
        trace := trace w ++ [Wrote kw msg a (fails (hd Delivered (broker w)))] |},
     fails (hd Delivered (broker w))).
Proof.
  unfold write.
  destruct (hd Delivered (broker w)) as [|e|e] eqn:Eo; cbn [fails].
  - destruct (kafka.Balancer kw).
    destruct (Balance_some (counters w) msg _ (partitions_of_nonempty (numPartitions (env w))))
      as (p & cs & ->).
    exists (Some p), cs. reflexivity.
  - exists None, (counters w). reflexivity.
  - destruct (kafka.Balancer kw).
    destruct (Balance_some (counters w) msg _ (partitions_of_nonempty (numPartitions (env w))))
      as (p & cs & ->).
    exists (Some p), cs. reflexivity.
Qed.

(** The calls [forward] adds, one by one: the clock, the print, one write
    with the error its outcome returns, and the log line of that error. *)
Lemma forward_trace (kw : kafka.Writer) (f : string) (p : PositionReport) (w : World) :
  exists a cs,
    forward kw f p w =
    {| env := env w; inbound := inbound w; broker := tl (broker w); counters := cs;
       trace :=
         trace w
         ++ [ClockRead (clock (env w));
             Printed ("[%s] ShipId: %d Latitude: %f Longitude: %f" ++ newline)
               [argRFC3339 (clock (env w)); argInt (UserID p);
                argFloat (Latitude p); argFloat (Longitude p)];
             Wrote kw {| kafka.Key := Sprintf_d (UserID p); kafka.Value := f |} a
               (fails (hd Delivered (broker w)))]
         ++ match fails (hd Delivered (broker w)) with
            | Some err => [Logged "failed to write message to kafka: %v" [argError err]]
            | None => []
            end |}.
Proof.
  unfold forward. cbn zeta.
  match goal with |- context [write kw ?m ?w2] =>
    destruct (write_spec kw m w2) as (a & cs & ->) end.
  cbn [fst snd record env inbound broker counters trace].
  exists a, cs.
  destruct (fails (hd Delivered (broker w))) as [e|];
    unfold record; cbn [env inbound broker counters trace];
    repeat rewrite <- app_assoc; reflexivity.
Qed.

(** What [forward] leaves: the world differs by the outcome used up, the
    balancer's counters and the calls added, which hold exactly one write. *)
Lemma forward_spec (kw : kafka.Writer) (f : string) (p : PositionReport) (w : World) :
  exists cs,
    env (forward kw f p w) = env w /\
    inbound (forward kw f p w) = inbound w /\
    broker (forward kw f p w) = tl (broker w) /\
    trace (forward kw f p w) = (trace w ++ cs)%list /\
    Forall (streaming_call kw) cs /\
    writes cs = [(kw, {| kafka.Key := Sprintf_d (UserID p); kafka.Value := f |})].
Proof.
  unfold forward. cbn zeta.
  match goal with |- context [write kw ?m ?w2] =>
    destruct (write_spec kw m w2) as (a & cs & ->) end.
  cbn [fst snd record env inbound broker counters trace].
  destruct (fails (hd Delivered (broker w))) as [e|];
    cbn [record env inbound broker counters trace];
    eexists; (repeat split; [rewrite <- !app_assoc; reflexivity | | reflexivity]);
    repeat constructor.
Qed.

Section Pipeline.
Context `{FloatConv}.
Variable kw : kafka.Writer.

(** The iteration that reads a position report, call by call. *)
Lemma iteration_position_report (w : World) (f : string) (rest : list string)
    (m : Message) :
  inbound w = f :: rest ->
  decode.Unmarshal f = inr m ->
  MessageType m = "PositionReport" ->
  exists a cs,
    run (iteration kw) w
    ≈ Ret ({| env := env w; inbound := rest; broker := tl (broker w); counters := cs;
              trace :=
                trace w
                ++ [Received (inr f);
                    ClockRead (clock (env w));
                    Printed ("[%s] ShipId: %d Latitude: %f Longitude: %f" ++ newline)
                      [argRFC3339 (clock (env w));
                       argInt (UserID (body_PositionReport (Message_Message m)));
                       argFloat (Latitude (body_PositionReport (Message_Message m)));
                       argFloat (Longitude (body_PositionReport (Message_Message m)))];
                    Wrote kw
                      {| kafka.Key :=
                           Sprintf_d (UserID (body_PositionReport (Message_Message m)));
                         kafka.Value := f |} a (fails (hd Delivered (broker w)))]
                ++ match fails (hd Delivered (broker w)) with
                   | Some err =>
                     [Logged "failed to write message to kafka: %v" [argError err]]
                   | None => []
                   end |}, inl tt).
Proof.
  intros Hin Hd Ht.
  pose proof (iteration_frame kw w _ f rest Hin (frame_position_report kw f m _ Hd Ht)) as Hi.
  destruct (forward_trace kw f (body_PositionReport (Message_Message m)) (arrived f rest w))
    as (a & cs & Hf).
  exists a, cs. rewrite Hi, Hf. unfold arrived.
  cbn [env inbound broker counters trace]. rewrite <- app_assoc. reflexivity.
Qed.

(** Every frame is handled: the iteration asks for the next one. *)
Lemma iteration_total (w : World) (f : string) (rest : list string) :
  inbound w = f :: rest ->
  exists w' cs,
    run (iteration kw) w ≈ Ret (w', inl tt) /\
    env w' = env w /\ inbound w' = rest /\
    trace w' = (trace w ++ Received (inr f) :: cs)%list /\
    Forall (streaming_call kw) cs /\
    writes cs = records_of kw f.
Proof.
  intros Hin. unfold records_of.
  destruct (decode.Unmarshal f) as [err|m] eqn:Hd.
  - eexists. exists [Logged "failed to unmarshal message: %v" [argError err]].
    split; [apply (iteration_frame kw w _ f rest Hin), frame_decode_failure, Hd|].
    cbn. rewrite <- app_assoc. repeat split. repeat constructor.
  - destruct (MessageType m =? "PositionReport")%string eqn:Ht.
    + apply String.eqb_eq in Ht.
      destruct (forward_spec kw f (body_PositionReport (Message_Message m)) (arrived f rest w))
        as (cs & He & Hi & _ & Htr & Hs & Hw).
      eexists. exists cs.
      split; [apply (iteration_frame kw w _ f rest Hin), (frame_position_report kw f m _ Hd Ht)|].
      rewrite He, Hi, Htr. cbn. rewrite <- app_assoc. repeat split; assumption.
    + apply String.eqb_neq in Ht.
      eexists. exists [].
      split; [apply (iteration_frame kw w _ f rest Hin), (frame_other_type kw f m _ Hd Ht)|].
      cbn. repeat split. constructor.
Qed.

(** The loop runs through the frames that arrive and returns when the read
    fails: nothing follows the failed read. *)
Lemma loop_total (fs : list string) :
  forall w : World,
    inbound w = fs ->
    exists w' cs,
      run (read_loop kw) w
      ≈ Ret (w', Errorf "failed to read message: %w" (read_error (env w))) /\
      env w' = env w /\
      trace w' = (trace w ++ cs ++ [Received (inl (read_error (env w)))])%list /\
      Forall (streaming_call kw) cs /\
      writes cs = flat_map (records_of kw) fs.
Proof.
  induction fs as [|f rest IH]; intros w Hin.
  - eexists. exists []. split; [apply loop_exit, iteration_read_failure, Hin|].
    cbn. repeat split. constructor.
  - destruct (iteration_total w f rest Hin) as (w1 & cs1 & Hr & He & Hi & Htr & Hs & Hw).
    destruct (IH w1 Hi) as (w' & cs & Hr' & He' & Htr' & Hs' & Hw').
    exists w', (Received (inr f) :: cs1 ++ cs)%list.
    split; [rewrite (loop_continue kw w w1 Hr), Hr', He; reflexivity|].
    split; [congruence|].
    split; [rewrite Htr', Htr, He; cbn; rewrite <- !app_assoc; reflexivity|].
    split.
    + constructor; [exact I|]. apply Forall_app. split; assumption.
    + cbn. unfold writes in *. rewrite flat_map_app. cbn in *. congruence.
Qed.

Lemma Marshal_subscribeMessage : encode.Marshal subscribeMessage = inr subscribeJSON.
Proof. reflexivity. Qed.

Lemma connect_dial_failure (w : World) (e : error) :
  dial_error (env w) = Some e ->
  run (connectAISStream kw) w
  ≈ Ret (record (Dialed feed_url (Some e)) w, Some (Errorf "failed to connect: %w" e)).
Proof.
  intros Hd. unfold connectAISStream. run_step. rewrite Hd. rewrite run_ret. reflexivity.
Qed.

Lemma connect_send_failure (w : World) (e : error) :
  dial_error (env w) = None ->
  send_error (env w) = Some e ->
  run (connectAISStream kw) w
  ≈ Ret (record ConnClosed
           (record (Sent TextMessage subscribeJSON (Some e)) (record (Dialed feed_url None) w)),
         Some (Errorf "failed to send subscribe message: %w" e)).
Proof.
  intros Hd Hs. unfold connectAISStream. run_step. rewrite Hd. rewrite Marshal_subscribeMessage.
  rewrite bind_bind. run_step.
  cbn [record env]. rewrite Hs. rewrite bind_ret_l.
  run_step. rewrite run_ret.
  reflexivity.
Qed.

Lemma connect_streams (w : World) :
  dial_error (env w) = None ->
  send_error (env w) = None ->
  exists w' cs,
    run (connectAISStream kw) w
    ≈ Ret (w', Some (Errorf "failed to read message: %w" (read_error (env w)))) /\
    env w' = env w /\
    trace w' =
      (trace w ++ [Dialed feed_url None; Sent TextMessage subscribeJSON None] ++ cs
       ++ [Received (inl (read_error (env w))); ConnClosed])%list /\
    Forall (streaming_call kw) cs /\
    writes cs = flat_map (records_of kw) (inbound w).
Proof.
  intros Hd Hs.
  destruct (loop_total (inbound w)
              (record (Sent TextMessage subscribeJSON None) (record (Dialed feed_url None) w))
              eq_refl)
    as (w1 & cs & Hr & He & Htr & Hcs & Hw).
  exists (record ConnClosed w1), cs.
  split.
  - unfold connectAISStream. run_step. rewrite Hd. rewrite Marshal_subscribeMessage.
    rewrite bind_bind. run_step.
    cbn [record env]. rewrite Hs. rewrite bind_bind.
    rewrite (run_bind _ _ _ _ _ Hr). rewrite bind_ret_l.
    run_step. rewrite run_ret.
    reflexivity.
  - cbn in *. rewrite He, Htr. rewrite <- !app_assoc. cbn.
    repeat split; assumption.
Qed.

End Pipeline.

Section Main.
Context `{FloatConv}.

(** [main] after [connectAISStream] has returned an error: the error is
    logged and the exit status is 1. *)
Lemma main_run (w w1 : World) (err : error) :
  run (connectAISStream (writer_of (env w))) (started w) ≈ Ret (w1, Some err) ->
  run main w ≈ Ret (record (LoggedFatal err) w1, 1).
Proof.
  intros Hc. unfold main.
  run_step.
  run_step.
  run_step.
  run_step.
  cbn [record env environ].
  match goal with |- run (ITree.bind _ _) ?w0 ≈ _ =>
    replace w0 with (started w)
      by (unfold started, startup, writer_of, record; cbn [env inbound broker counters trace]; repeat rewrite <- app_assoc; reflexivity)
  end.
  fold (writer_of (env w)).
  rewrite (run_bind _ _ _ _ _ Hc).
  run_step. rewrite run_ret. reflexivity.
Qed.

End Main.

(** ** Decoding *)

Section Decoding.
Context `{FloatConv}.
Import json decode shape.

(** Members that name no field leave the struct as it was. *)
Lemma object_into_unknown {T : Type} (goType : string) (fields : list string)
    (store : string -> value -> T -> T * option error) (ms : list (string * value)) :
  forallb (unknown fields) ms = true ->
  forall acc : T * option error,
    fold_left
      (fun (acc : T * option error) (kv : string * value) =>
         match find_field fields (fst kv) with
         | Some f =>
           let '(t, e) := store f (snd kv) (fst acc) in (t, saveError (snd acc) e)
         | None => acc
         end) ms acc = acc.
Proof.
  induction ms as [|kv ms IH]; intros Hu acc; cbn in *; [reflexivity|].
  apply andb_prop in Hu. destruct Hu as [Hk Hu]. unfold unknown in Hk.
  destruct (find_field fields (fst kv)); [discriminate|]. apply IH, Hu.
Qed.

Lemma empty_report_zero (v : value) :
  empty_report v = true ->
  PositionReport_into v zero_PositionReport = (zero_PositionReport, None).
Proof.
  destruct v as [| | | | |ms]; cbn; try discriminate; intros Hu; [reflexivity|].
  apply (object_into_unknown "main.PositionReport"), Hu.
Qed.

Lemma empty_body_zero (v : value) :
  empty_body v = true ->
  MessageBody_into v zero_MessageBody = (zero_MessageBody, None).
Proof.
  destruct v as [| | | | |ms]; cbn; try discriminate; [reflexivity|].
  induction ms as [|kv ms IH]; cbn; [reflexivity|].
  intros Hm. apply andb_prop in Hm. destruct Hm as [Hk Hm].
  unfold unknown in Hk. destruct (find_field MessageBody_fields (fst kv)) as [f|].
  - cbn in Hk. unfold MessageBody_store. cbn [fst snd body_PositionReport zero_MessageBody].
    rewrite (empty_report_zero _ Hk). cbn. apply IH, Hm.
  - apply IH, Hm.
Qed.

Lemma find_field_in (fields : list string) (key f : string) :
  find_field fields key = Some f -> In f fields.
Proof.
  unfold find_field. destruct (find (String.eqb key) fields) eqn:E1.
  - intros [= <-]. apply find_some in E1. apply E1.
  - intros E2. apply find_some in E2. apply E2.
Qed.

(** The envelope of a bare position report: the type is stored, the
    payload stays zero, no error is recorded. *)
Lemma bare_members (ms : list (string * value)) :
  forallb
    (fun kv =>
       unknown Message_fields kv
       || (names "MessageType" Message_fields kv && is_PositionReport (snd kv))
       || (names "Message" Message_fields kv && empty_body (snd kv))) ms = true ->
  forall s : string,
    fold_left
      (fun (acc : Message * option error) (kv : string * value) =>
         match find_field Message_fields (fst kv) with
         | Some f =>
           let '(t, e) := Message_store f (snd kv) (fst acc) in (t, saveError (snd acc) e)
         | None => acc
         end) ms
      ({| MessageType := s; Message_Message := zero_MessageBody |}, None)
    = ({| MessageType :=
            if existsb (names "MessageType" Message_fields) ms
            then "PositionReport" else s;
          Message_Message := zero_MessageBody |}, None).
Proof.
  induction ms as [|kv ms IH]; intros Hm s; cbn [fold_left existsb]; [reflexivity|].
  cbn [forallb] in Hm. apply andb_prop in Hm. destruct Hm as [Hk Hm].
  unfold unknown, names in Hk |- *.
  destruct (find_field Message_fields (fst kv)) as [f|] eqn:Ef.
  - cbn [orb] in Hk. unfold Message_store. cbn [fst snd MessageType Message_Message].
    destruct (f =? "MessageType")%string eqn:E1.
    + cbn [andb orb] in Hk.
      destruct (is_PositionReport (snd kv)) eqn:Ep.
      * destruct (snd kv); try discriminate. cbn in Ep.
        apply String.eqb_eq in Ep. subst. cbn [string_into saveError orb].
        rewrite (IH Hm). destruct (existsb _ ms); reflexivity.
      * cbn in Hk. apply andb_prop in Hk. destruct Hk as [Hk _].
        apply find_field_in in Ef. cbn in Ef.
        destruct Ef as [<-|[<-|[]]]; discriminate.
    + cbn [andb orb] in Hk. apply andb_prop in Hk. destruct Hk as [_ Hk].
      rewrite (empty_body_zero _ Hk). cbn [saveError orb].
      apply IH, Hm.
  - cbn [orb]. apply IH, Hm.
Qed.

Lemma bare_position_report_decodes (f : string) (v : value) :
  parse f = Some v ->
  bare_position_report v = true ->
  Unmarshal f =
  inr {| MessageType := "PositionReport"; Message_Message := zero_MessageBody |}.
Proof.
  intros Hp Hb. unfold Unmarshal. rewrite Hp.
  destruct v as [| | | | |ms]; try discriminate.
  cbn in Hb. apply andb_prop in Hb. destruct Hb as [Hm He].
  unfold Message_into, object_into, zero_Message.
  rewrite (bare_members ms Hm). rewrite He. reflexivity.
Qed.

(** Storing an object and storing it without its unknown members is the
    same, when each field is stored alike from its member and from [sub] of
    its member. *)
Lemma object_into_prune {T : Type} (goType : string) (fields : list string)
    (store : string -> value -> T -> T * option error)
    (sub : string -> value -> value) :
  (forall f x t, store f (sub f x) t = store f x t) ->
  forall (v : value) (old : T),
    object_into goType fields store (prune_object fields sub v) old
    = object_into goType fields store v old.
Proof.
  intros Hsub v old. destruct v as [| | | | |ms]; try reflexivity.
  cbn. generalize (old, @None error) as acc.
  induction ms as [|kv ms IH]; intros acc; cbn; [reflexivity|].
  destruct (find_field fields (fst kv)) as [f|] eqn:Ef; cbn.
  - rewrite Ef. rewrite Hsub. apply IH.
  - apply IH.
Qed.

Lemma PositionReport_into_prune (v : value) (old : PositionReport) :
  PositionReport_into (prune_report v) old = PositionReport_into v old.
Proof. apply object_into_prune. reflexivity. Qed.

Lemma MessageBody_into_prune (v : value) (old : MessageBody) :
  MessageBody_into (prune_body v) old = MessageBody_into v old.
Proof.
  apply object_into_prune. intros f x t. unfold MessageBody_store.
  rewrite PositionReport_into_prune. reflexivity.
Qed.

Lemma Message_into_prune (v : value) (old : Message) :
  Message_into (prune v) old = Message_into v old.
Proof.
  apply object_into_prune. intros f x t. unfold Message_store.
  destruct (f =? "MessageType")%string eqn:E1.
  - destruct (f =? "Message")%string eqn:E2; [|reflexivity].
    apply String.eqb_eq in E1, E2. congruence.
  - destruct (f =? "Message")%string; [|reflexivity].
    rewrite MessageBody_into_prune. reflexivity.
Qed.

End Decoding.

(** ** The balancer *)

Section Balancer.
Import kafka.

(** The loop of [Balance] ends on the index of a counter with the fewest
    bytes: [pre] holds the counters already seen, [tail] those to come. *)
Lemma least_spec (d : leastBytesCounter) (tail : list leastBytesCounter) :
  forall (pre : list leastBytesCounter) (i minIndex : nat) (minBytes : Z),
    List.length pre = S i ->
    (minIndex < List.length pre)%nat ->
    minBytes = bytes (nth minIndex pre d) ->
    (forall c, In c pre -> minBytes <= bytes c) ->
    (least tail i minIndex minBytes < List.length (pre ++ tail))%nat /\
    forall c, In c (pre ++ tail) ->
      bytes (nth (least tail i minIndex minBytes) (pre ++ tail) d) <= bytes c.
Proof.
  induction tail as [|c tail IH]; intros pre i mi mb Hl Hmi Hmb Hmin; cbn [least].
  - rewrite app_nil_r. split; [assumption|]. intros c Hc. rewrite <- Hmb. auto.
  - replace (pre ++ c :: tail)%list with ((pre ++ [c]) ++ tail)%list
      by (rewrite <- app_assoc; reflexivity).
    destruct (bytes c <? mb) eqn:Ec.
    + apply Z.ltb_lt in Ec. apply IH.
      * rewrite length_app. cbn. lia.
      * rewrite length_app. cbn. lia.
      * rewrite app_nth2 by lia. rewrite Hl, Nat.sub_diag. reflexivity.
      * intros c' Hc'. apply in_app_or in Hc'. destruct Hc' as [Hc'|[<-|[]]].
        -- specialize (Hmin c' Hc'). lia.
        -- lia.
    + apply Z.ltb_ge in Ec. apply IH.
      * rewrite length_app. cbn. lia.
      * rewrite length_app. cbn. lia.
      * rewrite app_nth1 by lia. assumption.
      * intros c' Hc'. apply in_app_or in Hc'. destruct Hc' as [Hc'|[<-|[]]].
        -- auto.
        -- assumption.
Qed.


Lemma counters_for_length (cs : LeastBytes_state) (ps : list Z) :
  List.length (counters_for cs ps) = List.length ps.
Proof.
  unfold counters_for. destruct (List.length ps =? List.length cs)%nat eqn:E.
  - apply Nat.eqb_eq in E. congruence.
  - apply makeCounters_length.
Qed.

(** The partition chosen is that of a counter with the fewest bytes. *)
Lemma Balance_least (cs cs' : LeastBytes_state) (msg : Message) (ps : list Z) (p : Z) :
  Balance cs msg ps = Some (p, cs') ->
  exists c, In c (counters_for cs ps) /\ partition c = p /\
            forall c', In c' (counters_for cs ps) -> bytes c <= bytes c'.
Proof.
  unfold Balance. destruct (counters_for cs ps) as [|c0 tail]; [discriminate|].
  intros [= <- _].
  destruct (least_spec c0 tail [c0] 0 0 (bytes c0)) as [Hlt Hmin];
    [reflexivity | cbn; lia | reflexivity | intros c [<-|[]]; lia |].
  cbn [app] in Hlt, Hmin.
  exists (nth (least tail 0 0 (bytes c0)) (c0 :: tail) c0).
  split; [apply nth_In, Hlt|]. split; [reflexivity | exact Hmin].
Qed.

End Balancer.

Lemma writes_app (a b : list call) : writes (a ++ b) = (writes a ++ writes b)%list.
Proof. apply flat_map_app. Qed.

Lemma streaming_later (kw : kafka.Writer) (cs : list call) :
  Forall (streaming_call kw) cs -> Forall (later_call kw) cs.
Proof.
  apply Forall_impl. intros [] Hc; cbn in *; try exact I; try contradiction; assumption.
Qed.

Section MainTotal.
Context `{FloatConv}.

(** [main] always ends with exit status 1; once started it reads no
    variable of the process environment and writes through one writer. *)
Lemma main_total (w : World) :
  exists w' cs,
    run main w ≈ Ret (w', 1) /\
    trace w' = (trace w ++ startup (env w) ++ cs)%list /\
    Forall (later_call (writer_of (env w))) cs.
Proof.
  destruct (dial_error (env w)) as [e|] eqn:Hd.
  - eexists. exists [Dialed feed_url (Some e); LoggedFatal (Errorf "failed to connect: %w" e)].
    split; [apply main_run, (connect_dial_failure _ (started w) e Hd)|].
    split; [cbn; rewrite <- !app_assoc; reflexivity | repeat constructor].
  - destruct (send_error (env w)) as [e|] eqn:Hs.
    + eexists.
      exists [Dialed feed_url None; Sent TextMessage subscribeJSON (Some e); ConnClosed;
              LoggedFatal (Errorf "failed to send subscribe message: %w" e)].
      split; [apply main_run, (connect_send_failure _ (started w) e Hd Hs)|].
      split; [cbn; rewrite <- !app_assoc; reflexivity | repeat constructor].
    + destruct (connect_streams (writer_of (env w)) (started w) Hd Hs)
        as (w1 & cs & Hr & He & Htr & Hcs & _).
      eexists.
      exists ([Dialed feed_url None; Sent TextMessage subscribeJSON None] ++ cs
              ++ [Received (inl (read_error (env w))); ConnClosed;
                  LoggedFatal (Errorf "failed to read message: %w" (read_error (env w)))])%list.
      split; [apply main_run, Hr|].
      split.
      * cbn. rewrite Htr. cbn. rewrite <- !app_assoc. cbn.
        rewrite <- !app_assoc. reflexivity.
      * constructor; [exact I|]. constructor; [exact I|].
        apply Forall_app. split; [apply streaming_later, Hcs|].
        repeat constructor.
Qed.

End MainTotal.

(** ** The pipeline, frame by frame *)

Section Claims.
Context `{FloatConv}.

(** C2. An inbound frame that decodes to an envelope with MessageType
    "PositionReport" is published exactly once: the iteration that reads it
    reads the clock, prints the report and makes one WriteMessages call,
    whose key is the decimal text of the report's UserID and whose value is
    the frame itself, byte for byte; it adds a log line when the call
    returns an error, and nothing else. *)
Theorem position_report_published_verbatim
    (kw : kafka.Writer) (w : World) (f : string) (rest : list string) (m : Message) :
  inbound w = f :: rest ->
  decode.Unmarshal f = inr m ->
  MessageType m = "PositionReport" ->
  let aisMessage := body_PositionReport (Message_Message m) in
  let published :=
    {| kafka.Key := Sprintf_d (UserID aisMessage); kafka.Value := f |} in
  exists w' a,
    run (iteration kw) w ≈ Ret (w', inl tt) /\
    trace w' =
    (trace w
     ++ [Received (inr f);
         ClockRead (clock (env w));
         Printed ("[%s] ShipId: %d Latitude: %f Longitude: %f" ++ newline)
           [argRFC3339 (clock (env w)); argInt (UserID aisMessage);
            argFloat (Latitude aisMessage); argFloat (Longitude aisMessage)];
         Wrote kw published a (fails (hd Delivered (broker w)))]
     ++ match fails (hd Delivered (broker w)) with
        | Some err => [Logged "failed to write message to kafka: %v" [argError err]]
        | None => []
        end)%list /\
    writes (trace w') = (writes (trace w) ++ [(kw, published)])%list.
Proof.
  intros Hin Hd Ht aisMessage published.
  destruct (iteration_position_report kw w f rest m Hin Hd Ht) as (a & cs & Hr).
  eexists. exists a. split; [exact Hr|]. cbn [trace]. split; [reflexivity|].
  rewrite !writes_app. cbn [writes flat_map app].
  destruct (fails (hd Delivered (broker w))); cbn; reflexivity.
Qed.

(** C3. An inbound frame that decodes to an envelope of another
    MessageType is discarded silently: the iteration that reads it does
    nothing but the read (no WriteMessages call, no log line, no error), and
    the loop goes on with the frames that follow. *)
Theorem other_message_type_discarded
    (kw : kafka.Writer) (w : World) (f : string) (rest : list string) (m : Message) :
  inbound w = f :: rest ->
  decode.Unmarshal f = inr m ->
  (MessageType m =? "PositionReport")%string = false ->
  let w' := {| env := env w; inbound := rest; broker := broker w;
               counters := counters w;
               trace := trace w ++ [Received (inr f)] |} in
  run (iteration kw) w ≈ Ret (w', inl tt) /\
  run (read_loop kw) w ≈ run (read_loop kw) w'.
Proof.
  intros Hin Hd Ht w'. apply String.eqb_neq in Ht.
  assert (Hi : run (iteration kw) w ≈ Ret (w', inl tt))
    by apply (iteration_frame kw w _ f rest Hin), (frame_other_type kw f m _ Hd Ht).
  split; [exact Hi | apply loop_continue, Hi].
Qed.



(** C6. When the read fails (the stream has ended or the connection is
    closed), the pipeline ends: after the failed read the program only closes
    the connection and logs the cause, and the process exits with status 1.
    Nothing else follows the failed read (no read, no write, no dial), and
    the run holds one dial. *)
Theorem read_failure_terminates (w : World) :
  dial_error (env w) = None ->
  send_error (env w) = None ->
  exists w' cs,
    run main w ≈ Ret (w', 1) /\
    trace w' =
    (trace w ++ startup (env w)
     ++ [Dialed feed_url None; Sent TextMessage subscribeJSON None]
     ++ cs
     ++ [Received (inl (read_error (env w)));
         ConnClosed;
         LoggedFatal (Errorf "failed to read message: %w" (read_error (env w)))])%list /\
    Forall (streaming_call (writer_of (env w))) cs.
Proof.
  intros Hd Hs.
  destruct (connect_streams (writer_of (env w)) (started w) Hd Hs)
    as (w1 & cs & Hr & He & Htr & Hcs & _).
  eexists. exists cs. split; [apply main_run, Hr|].
  split; [|exact Hcs].
  cbn. rewrite Htr. cbn. rewrite <- !app_assoc. cbn. rewrite <- !app_assoc.
  reflexivity.
Qed.

(** C9, as amended. Whether a decoded envelope is published depends on its
    MessageType alone, never on its nested payload: the iteration that reads
    it makes one WriteMessages call when the type is "PositionReport" and
    none otherwise; a "PositionReport" envelope whose payload is empty
    (zero-valued fields) is published with key "0". *)
Theorem published_by_type_whatever_the_payload
    (kw : kafka.Writer) (w : World) (f : string) (rest : list string) (m : Message) :
  inbound w = f :: rest ->
  decode.Unmarshal f = inr m ->
  exists w',
    run (iteration kw) w ≈ Ret (w', inl tt) /\
    writes (trace w') =
    (writes (trace w)
     ++ (if (MessageType m =? "PositionReport")%string
         then [(kw, {| kafka.Key :=
                         Sprintf_d (UserID (body_PositionReport (Message_Message m)));
                       kafka.Value := f |})]
         else []))%list /\
    (MessageType m = "PositionReport" ->
     body_PositionReport (Message_Message m) = zero_PositionReport ->
     writes (trace w') =
     (writes (trace w) ++ [(kw, {| kafka.Key := "0"; kafka.Value := f |})])%list).
Proof.
  intros Hin Hd.
  destruct (iteration_total kw w f rest Hin) as (w' & cs & Hr & _ & _ & Htr & _ & Hw).
  exists w'. split; [exact Hr|].
  assert (Hws : writes (trace w') = (writes (trace w) ++ records_of kw f)%list).
  { rewrite Htr, writes_app. cbn [writes flat_map app]. fold (writes cs).
    rewrite Hw. reflexivity. }
  unfold records_of in Hws. rewrite Hd in Hws.
  split; [exact Hws|].
  intros Ht Hz. rewrite Hws. apply String.eqb_eq in Ht. rewrite Ht, Hz. reflexivity.
Qed.

(** C10. A frame that is a JSON object with MessageType "PositionReport"
    and whose nested payload is absent, null or without any of its fields
    decodes without error to zero-valued fields (UserID 0, Latitude 0,
    Longitude 0), and the iteration that reads it publishes the frame
    verbatim with key "0".  In every frame, members that name no field of
    the struct are ignored: the frame decodes as it does without them. *)
Theorem bare_position_report_published_with_key_0
    (kw : kafka.Writer) (w : World) (f : string) (rest : list string) (v : json.value) :
  inbound w = f :: rest ->
  json.parse f = Some v ->
  shape.bare_position_report v = true ->
  decode.Unmarshal f =
    inr {| MessageType := "PositionReport";
           Message_Message :=
             {| body_PositionReport :=
                  {| UserID := 0; Latitude := float64_zero; Longitude := float64_zero |} |} |} /\
  (exists w',
     run (iteration kw) w ≈ Ret (w', inl tt) /\
     writes (trace w') =
     (writes (trace w) ++ [(kw, {| kafka.Key := "0"; kafka.Value := f |})])%list) /\
  (forall (f' : string) (v' : json.value),
     json.parse f' = Some v' ->
     decode.Unmarshal f' =
     match decode.Message_into (shape.prune v') zero_Message with
     | (m, None) => inr m
     | (_, Some e) => inl e
     end).
Proof.
  intros Hin Hp Hb.
  pose proof (bare_position_report_decodes f v Hp Hb) as Hd.
  split; [exact Hd|]. split.
  - destruct (iteration_total kw w f rest Hin) as (w' & cs & Hr & _ & _ & Htr & _ & Hw).
    exists w'. split; [exact Hr|].
    rewrite Htr, writes_app. cbn [writes flat_map app]. fold (writes cs).
    rewrite Hw. unfold records_of. rewrite Hd. reflexivity.
  - intros f' v' Hp'. unfold decode.Unmarshal. rewrite Hp'.
    rewrite Message_into_prune. reflexivity.
Qed.

(** C8, as amended. The broker address and the topic come from the
    environment variables KAFKA_BROKER and KAFKA_TOPIC, with the defaults
    localhost:9092 and ais-position-reports for a variable that is unset or
    empty: [main] calls [os.Getenv] for these two names, and the program
    calls it for no other; it logs the address and the topic it will use, and
    every record of the run is written through the writer with that address
    and topic. *)
Theorem broker_and_topic_from_KAFKA_variables (w : World) :
  let kafkaBroker :=
    if (getenv (environ (env w)) "KAFKA_BROKER" =? EmptyString)%string
    then "localhost:9092" else getenv (environ (env w)) "KAFKA_BROKER" in
  let kafkaTopic :=
    if (getenv (environ (env w)) "KAFKA_TOPIC" =? EmptyString)%string
    then "ais-position-reports" else getenv (environ (env w)) "KAFKA_TOPIC" in
  exists w' cs,
    run main w ≈ Ret (w', 1) /\
    trace w' =
    (trace w
     ++ [Slept 10;
         EnvRead "KAFKA_BROKER" (getenv (environ (env w)) "KAFKA_BROKER");
         EnvRead "KAFKA_TOPIC" (getenv (environ (env w)) "KAFKA_TOPIC");
         Logged "Starting AIS stream, publishing to Kafka broker: %s, topic: %s"
           [argString kafkaBroker; argString kafkaTopic]]
     ++ cs)%list /\
    (forall key value, ~ In (EnvRead key value) cs) /\
    (forall kw msg a r,
       In (Wrote kw msg a r) cs ->
       kw = {| kafka.Addr := kafkaBroker; kafka.Topic := kafkaTopic;
               kafka.Balancer := kafka.LeastBytes |}).
Proof.
  intros kafkaBroker kafkaTopic.
  destruct (main_total w) as (w' & cs & Hr & Htr & Hcs).
  exists w', cs. split; [exact Hr|]. split; [exact Htr|].
  rewrite Forall_forall in Hcs. split.
  - intros key value Hin. apply (Hcs _ Hin).
  - intros kw msg a r Hin. apply (Hcs _ Hin).
Qed.

End Claims.

(** ** The pipeline on concrete frames and worlds *)

(** C7. The subscribe request is the first frame the program sends, it is
    the JSON object of the specification, it holds one bounding box, and the
    box is a pair of corners; but the corners are (-180, -90) and (180, 90),
    so, read as (latitude, longitude), the latitudes -180 and 180 lie
    outside [-90, 90]: the invariant of the request does not hold. *)
Theorem subscribe_box_latitude_out_of_range :
  subscribeJSON =
    frame "{'APIKey':'4275544f465907fb8c57875dcc52425666683d75','BoundingBoxes':[[[-180,-90],[180,90]]]}" /\
  BoundingBoxes subscribeMessage =
    [ [ [float64_of_Z (-180); float64_of_Z (-90)];
        [float64_of_Z 180; float64_of_Z 90] ] ] /\
  SubscribeRequest.at_least_one_box subscribeMessage = true /\
  forallb SubscribeRequest.pair_of_corners (BoundingBoxes subscribeMessage) = true /\
  SubscribeRequest.valid_latitude (float64_of_Z (-180)) = false /\
  SubscribeRequest.valid_latitude (float64_of_Z 180) = false /\
  SubscribeRequest.invariant subscribeMessage = false.
Proof. repeat split; vm_compute; reflexivity. Qed.

(** The first end-to-end scenario of the specification: the position report
    of vessel 367123456 is published once, under the key [367123456], with the
    frame as its value. *)
Lemma position_report_published_verbatim_witness :
  let published := {| kafka.Key := "367123456"; kafka.Value := frame_report |} in
  exists w' a,
    run (iteration sample_writer) (world [] 1 [frame_report] []) ≈ Ret (w', inl tt) /\
    trace w' =
    [Received (inr frame_report);
     ClockRead 1761782400;
     Printed ("[%s] ShipId: %d Latitude: %f Longitude: %f" ++ newline)
       [argRFC3339 1761782400; argInt 367123456;
        argFloat (Latitude (body_PositionReport (Message_Message (decoded frame_report))));
        argFloat (Longitude (body_PositionReport (Message_Message (decoded frame_report))))];
     Wrote sample_writer published a None] /\
    writes (trace w') = [(sample_writer, published)].
Proof.
  assert (Hd : decode.Unmarshal frame_report = inr (decoded frame_report))
    by (vm_compute; reflexivity).
  assert (Ht : MessageType (decoded frame_report) = "PositionReport")
    by (vm_compute; reflexivity).
  exact (position_report_published_verbatim sample_writer
           (world [] 1 [frame_report] []) frame_report [] (decoded frame_report)
           eq_refl Hd Ht).
Defined.

(** The second scenario: a ShipStaticData frame is read and nothing else
    happens. *)
Lemma other_message_type_discarded_witness :
  let w := world [] 1 [frame_static; frame_report] [] in
  let w' := world [] 1 [frame_report] [] in
  run (iteration sample_writer) w
  ≈ Ret ({| env := env w'; inbound := inbound w'; broker := broker w';
            counters := counters w'; trace := [Received (inr frame_static)] |}, inl tt) /\
  run (read_loop sample_writer) w
  ≈ run (read_loop sample_writer)
      {| env := env w'; inbound := inbound w'; broker := broker w';
         counters := counters w'; trace := [Received (inr frame_static)] |}.
Proof.
  assert (Hd : decode.Unmarshal frame_static = inr (decoded frame_static))
    by (vm_compute; reflexivity).
  assert (Ht : (MessageType (decoded frame_static) =? "PositionReport")%string = false)
    by (vm_compute; reflexivity).
  exact (other_message_type_discarded sample_writer
           (world [] 1 [frame_static; frame_report] []) frame_static [frame_report]
           (decoded frame_static) eq_refl Hd Ht).
Defined.



(** A stream of one frame that ends with an end-of-file error. *)
Lemma read_failure_terminates_witness :
  let w := world [] 1 [frame_report] [] in
  exists w' cs,
    run main w ≈ Ret (w', 1) /\
    trace w' =
    (startup (env w)
     ++ [Dialed feed_url None; Sent TextMessage subscribeJSON None]
     ++ cs
     ++ [Received (inl (Err "EOF"));
         ConnClosed;
         LoggedFatal (Errorf "failed to read message: %w" (Err "EOF"))])%list /\
    Forall (streaming_call (writer_of (env w))) cs.
Proof.
  exact (read_failure_terminates (world [] 1 [frame_report] []) eq_refl eq_refl).
Defined.

(** A PositionReport envelope with an empty payload is published with key
    [0]. *)
Lemma published_by_type_whatever_the_payload_witness :
  exists w',
    run (iteration sample_writer) (world [] 1 [frame_empty_report] []) ≈ Ret (w', inl tt) /\
    writes (trace w') =
    [(sample_writer, {| kafka.Key := "0"; kafka.Value := frame_empty_report |})] /\
    (MessageType (decoded frame_empty_report) = "PositionReport" ->
     body_PositionReport (Message_Message (decoded frame_empty_report)) = zero_PositionReport ->
     writes (trace w') =
     [(sample_writer, {| kafka.Key := "0"; kafka.Value := frame_empty_report |})]).
Proof.
  assert (Hd : decode.Unmarshal frame_empty_report = inr (decoded frame_empty_report))
    by (vm_compute; reflexivity).
  exact (published_by_type_whatever_the_payload sample_writer
           (world [] 1 [frame_empty_report] []) frame_empty_report []
           (decoded frame_empty_report) eq_refl Hd).
Defined.

(** A PositionReport envelope with members that name no field, and none of
    the fields of the report. *)
Lemma bare_position_report_published_with_key_0_witness :
  decode.Unmarshal frame_extra_fields =
    inr {| MessageType := "PositionReport";
           Message_Message :=
             {| body_PositionReport :=
                  {| UserID := 0; Latitude := float64_zero; Longitude := float64_zero |} |} |} /\
  (exists w',
     run (iteration sample_writer) (world [] 1 [frame_extra_fields] []) ≈ Ret (w', inl tt) /\
     writes (trace w') =
     [(sample_writer, {| kafka.Key := "0"; kafka.Value := frame_extra_fields |})]) /\
  (forall (f' : string) (v' : json.value),
     json.parse f' = Some v' ->
     decode.Unmarshal f' =
     match decode.Message_into (shape.prune v') zero_Message with
     | (m, None) => inr m
     | (_, Some e) => inl e
     end).
Proof.
  assert (Hp : json.parse frame_extra_fields = Some (parsed frame_extra_fields))
    by (vm_compute; reflexivity).
  assert (Hb : shape.bare_position_report (parsed frame_extra_fields) = true)
    by (vm_compute; reflexivity).
  exact (bare_position_report_published_with_key_0 sample_writer
           (world [] 1 [frame_extra_fields] []) frame_extra_fields []
           (parsed frame_extra_fields) eq_refl Hp Hb).
Defined.


(** C8 as the specification states it fails: with BROKER_ADDRESS and
    TOPIC_NAME set, the record is still written to localhost:9092 and
    ais-position-reports. *)
Lemma BROKER_ADDRESS_and_TOPIC_NAME_not_read :
  ~ configured_by_BROKER_ADDRESS_and_TOPIC_NAME
      (world [("BROKER_ADDRESS", "kafka:29092"); ("TOPIC_NAME", "boats")] 1
         [frame_report] []).
Proof.
  intros Hc.
  assert (E : exists w',
             exec 100 main
               (world [("BROKER_ADDRESS", "kafka:29092"); ("TOPIC_NAME", "boats")] 1
                  [frame_report] []) = Some (w', 1) /\
             In (Wrote sample_writer
                   {| kafka.Key := "367123456"; kafka.Value := frame_report |}
                   (Some 0) None) (trace w')).
  { eexists. split; [vm_compute; reflexivity|].
    vm_compute. do 9 right. left. reflexivity. }
  destruct E as (w' & E & Hin).
  destruct (Hc w' 1 _ _ _ _ (exec_sound _ _ _ _ _ E) Hin) as [Ha _].
  vm_compute in Ha. discriminate.
Qed.

(** C9 as the specification states it fails: the envelope of type
    PositionReport with an empty payload is not dropped, a record is
    written for it. *)
Lemma empty_position_report_not_dropped : ~ dropped_silently frame_empty_report.
Proof.
  intros Hc.
  assert (E : exists w',
             exec 100 (iteration sample_writer) (world [] 1 [frame_empty_report] [])
             = Some (w', inl tt) /\
             writes (trace w') =
             [(sample_writer, {| kafka.Key := "0"; kafka.Value := frame_empty_report |})]).
  { eexists. split; vm_compute; reflexivity. }
  destruct E as (w' & E & Hw).
  pose proof (Hc sample_writer (world [] 1 [frame_empty_report] []) w' [] _ eq_refl
                (exec_sound _ _ _ _ _ E)) as Hd.
  rewrite Hw in Hd. discriminate.
Qed.

(** ** Further properties of the pipeline *)

Section Further.
Context `{FloatConv}.

(** X2. Delivery accounting: in a run whose dial and subscribe succeed, the
    WriteMessages calls are, in the order of arrival of the frames, one call
    for each frame that decodes to a PositionReport envelope and none for any
    other frame. *)
Theorem one_write_per_position_report (w : World) :
  dial_error (env w) = None ->
  send_error (env w) = None ->
  exists w',
    run main w ≈ Ret (w', 1) /\
    writes (trace w') =
    (writes (trace w) ++ flat_map (records_of (writer_of (env w))) (inbound w))%list.
Proof.
  intros Hd Hs.
  destruct (connect_streams (writer_of (env w)) (started w) Hd Hs)
    as (w1 & cs & Hr & _ & Htr & _ & Hw).
  eexists. split; [apply main_run, Hr|].
  cbn [record trace]. rewrite Htr. cbn [started trace inbound] in *.
  rewrite !writes_app. rewrite Hw. cbn. rewrite !app_nil_r. reflexivity.
Qed.

(** X3. A failed dial is fatal: the error is logged, wrapped as "failed to
    connect", and the process exits with status 1 without a read, a write or
    a close. *)
Theorem connect_failure_is_fatal (w : World) (e : error) :
  dial_error (env w) = Some e ->
  run main w
  ≈ Ret ({| env := env w; inbound := inbound w; broker := broker w;
            counters := counters w;
            trace := trace w ++ startup (env w)
                     ++ [Dialed feed_url (Some e);
                         LoggedFatal (Errorf "failed to connect: %w" e)] |}, 1).
Proof.
  intros Hd. rewrite (main_run w _ _ (connect_dial_failure _ (started w) e Hd)).
  unfold record, started. cbn. rewrite <- !app_assoc. reflexivity.
Qed.

(** X4. A failed send of the subscribe request is fatal: the connection is
    closed, the error is logged, wrapped as "failed to send subscribe
    message", and the process exits with status 1 without reading a frame. *)
Theorem subscribe_failure_is_fatal (w : World) (e : error) :
  dial_error (env w) = None ->
  send_error (env w) = Some e ->
  run main w
  ≈ Ret ({| env := env w; inbound := inbound w; broker := broker w;
            counters := counters w;
            trace := trace w ++ startup (env w)
                     ++ [Dialed feed_url None;
                         Sent TextMessage subscribeJSON (Some e);
                         ConnClosed;
                         LoggedFatal (Errorf "failed to send subscribe message: %w" e)] |},
         1).
Proof.
  intros Hd Hs. rewrite (main_run w _ _ (connect_send_failure _ (started w) e Hd Hs)).
  unfold record, started. cbn. rewrite <- !app_assoc. reflexivity.
Qed.

(** X5. The subscribe request is the program's first call on the connection
    and its only [conn.WriteMessage]: right after a successful dial the
    program sends [subscribeJSON] as a text message, and it calls
    [conn.WriteMessage] no more in the run.  (The control frames that the
    websocket client writes by itself inside [conn.ReadMessage] are not calls
    of the program and are not spoken of.) *)
Theorem subscribe_request_sent_first (w : World) :
  dial_error (env w) = None ->
  exists w' cs,
    run main w ≈ Ret (w', 1) /\
    trace w' =
    (trace w ++ startup (env w)
     ++ [Dialed feed_url None; Sent TextMessage subscribeJSON (send_error (env w))]
     ++ cs)%list /\
    (forall messageType data r, ~ In (Sent messageType data r) cs).
Proof.
  intros Hd. destruct (send_error (env w)) as [e|] eqn:Hs.
  - eexists. exists [ConnClosed; LoggedFatal (Errorf "failed to send subscribe message: %w" e)].
    split; [apply main_run, (connect_send_failure _ (started w) e Hd Hs)|].
    split; [cbn; rewrite <- !app_assoc; reflexivity|].
    intros mt data r [Hin|[Hin|[]]]; discriminate.
  - destruct (connect_streams (writer_of (env w)) (started w) Hd Hs)
      as (w1 & cs & Hr & _ & Htr & Hcs & _).
    eexists.
    exists (cs ++ [Received (inl (read_error (env w))); ConnClosed;
                   LoggedFatal (Errorf "failed to read message: %w" (read_error (env w)))])%list.
    split; [apply main_run, Hr|].
    split; [cbn; rewrite Htr; cbn; rewrite <- !app_assoc; cbn; rewrite <- !app_assoc;
            reflexivity|].
    intros mt data r Hin. apply in_app_or in Hin. destruct Hin as [Hin|Hin].
    + rewrite Forall_forall in Hcs. apply (Hcs _ Hin).
    + destruct Hin as [Hin|[Hin|[Hin|[]]]]; discriminate.
Qed.

End Further.

(** X6. The key tells the vessels apart: two position reports have the same
    key exactly when they have the same UserID. *)
Theorem key_identifies_UserID (n n' : Z) : Sprintf_d n = Sprintf_d n' <-> n = n'.
Proof.
  split; [|intros ->; reflexivity].
  assert (Hp : forall z, NilZero.int_of_string (Sprintf_d z) = Some (Z.to_int z)).
  { intros z. apply NilZero.isi; destruct z; cbn; try discriminate;
      intros [= Hn]; apply (DecimalPos.Unsigned.to_uint_nonnil _ Hn). }
  intros E. apply DecimalZ.to_int_inj.
  pose proof (Hp n) as Hn. rewrite E, Hp in Hn. congruence.
Qed.

(** Four frames, two of them position reports: two writes, in order. *)
Lemma one_write_per_position_report_witness :
  let w := world [] 1 [frame_static; frame_report; frame_truncated; frame_empty_report] [] in
  exists w',
    run main w ≈ Ret (w', 1) /\
    writes (trace w') =
    [(sample_writer, {| kafka.Key := "367123456"; kafka.Value := frame_report |});
     (sample_writer, {| kafka.Key := "0"; kafka.Value := frame_empty_report |})].
Proof.
  exact (one_write_per_position_report
           (world [] 1 [frame_static; frame_report; frame_truncated; frame_empty_report] [])
           eq_refl eq_refl).
Defined.

(** A feed that refuses the connection. *)
Lemma connect_failure_is_fatal_witness :
  run main (world_refused [frame_report])
  ≈ Ret ({| env := env (world_refused [frame_report]); inbound := [frame_report];
            broker := []; counters := [];
            trace := startup (env (world_refused [frame_report]))
                     ++ [Dialed feed_url (Some (Err "connection refused"));
                         LoggedFatal (Errorf "failed to connect: %w"
                                        (Err "connection refused"))] |}, 1).
Proof.
  exact (connect_failure_is_fatal (world_refused [frame_report])
           (Err "connection refused") eq_refl).
Defined.

(** A connection on which the subscribe request cannot be sent. *)
Lemma subscribe_failure_is_fatal_witness :
  run main (world_mute [frame_report])
  ≈ Ret ({| env := env (world_mute [frame_report]); inbound := [frame_report];
            broker := []; counters := [];
            trace := startup (env (world_mute [frame_report]))
                     ++ [Dialed feed_url None;
                         Sent TextMessage subscribeJSON (Some (Err "broken pipe"));
                         ConnClosed;
                         LoggedFatal (Errorf "failed to send subscribe message: %w"
                                        (Err "broken pipe"))] |}, 1).
Proof.
  exact (subscribe_failure_is_fatal (world_mute [frame_report])
           (Err "broken pipe") eq_refl eq_refl).
Defined.

(** A run whose dial succeeds. *)
Lemma subscribe_request_sent_first_witness :
  let w := world [] 1 [frame_report] [] in
  exists w' cs,
    run main w ≈ Ret (w', 1) /\
    trace w' =
    (startup (env w)
     ++ [Dialed feed_url None; Sent TextMessage subscribeJSON None]
     ++ cs)%list /\
    (forall messageType data r, ~ In (Sent messageType data r) cs).
Proof.
  exact (subscribe_request_sent_first (world [] 1 [frame_report] []) eq_refl).
Defined.

(** ** The run as a fold over the frames *)

Section Fold.
Context `{FloatConv}.
Variable kw : kafka.Writer.

Lemma iteration_after_frame (w : World) (f : string) (rest : list string) :
  inbound w = f :: rest ->
  run (iteration kw) w ≈ Ret (after_frame kw w f, inl tt).
Proof.
  intros Hin. unfold after_frame. rewrite Hin. cbn [tl].
  apply (iteration_frame kw w _ f rest Hin).
  destruct (decode.Unmarshal f) as [err|m] eqn:Hd.
  - apply frame_decode_failure, Hd.
  - destruct (MessageType m =? "PositionReport")%string eqn:Ht.
    + apply String.eqb_eq in Ht. apply (frame_position_report kw f m _ Hd Ht).
    + apply String.eqb_neq in Ht. apply (frame_other_type kw f m _ Hd Ht).
Qed.

Lemma after_frame_env (w : World) (f : string) : env (after_frame kw w f) = env w.
Proof.
  unfold after_frame. destruct (decode.Unmarshal f) as [err|m]; [reflexivity|].
  destruct (MessageType m =? "PositionReport")%string; [|reflexivity].
  destruct (forward_trace kw f (body_PositionReport (Message_Message m))
              (arrived f (tl (inbound w)) w)) as (a & cs & ->).
  reflexivity.
Qed.

Lemma after_frame_inbound (w : World) (f : string) :
  inbound (after_frame kw w f) = tl (inbound w).
Proof.
  unfold after_frame. destruct (decode.Unmarshal f) as [err|m]; [reflexivity|].
  destruct (MessageType m =? "PositionReport")%string; [|reflexivity].
  destruct (forward_trace kw f (body_PositionReport (Message_Message m))
              (arrived f (tl (inbound w)) w)) as (a & cs & ->).
  reflexivity.
Qed.

(** The loop is the fold of [after_frame] over the frames that arrive,
    followed by the failed read. *)
Lemma loop_fold (fs : list string) :
  forall w : World,
    inbound w = fs ->
    run (read_loop kw) w
    ≈ Ret (record (Received (inl (read_error (env w)))) (fold_left (after_frame kw) fs w),
           Errorf "failed to read message: %w" (read_error (env w))).
Proof.
  induction fs as [|f rest IH]; intros w Hin.
  - apply loop_exit, iteration_read_failure, Hin.
  - rewrite (loop_continue kw w _ (iteration_after_frame w f rest Hin)).
    cbn [fold_left]. rewrite IH.
    + rewrite after_frame_env. reflexivity.
    + rewrite after_frame_inbound, Hin. reflexivity.
Qed.

Lemma fold_after_frame_env (fs : list string) :
  forall w, env (fold_left (after_frame kw) fs w) = env w.
Proof.
  induction fs as [|f rest IH]; intros w; cbn; [reflexivity|].
  rewrite IH. apply after_frame_env.
Qed.

(** The calls of one iteration: the read, then a block. *)
Lemma after_frame_block (w : World) (f : string) :
  exists b,
    trace (after_frame kw w f) = (trace w ++ Received (inr f) :: b)%list /\
    block kw (clock (env w)) f b.
Proof.
  unfold after_frame. destruct (decode.Unmarshal f) as [err|m] eqn:Hd.
  - eexists. split; [|apply (block_undecodable kw _ f err Hd)].
    cbn. rewrite <- app_assoc. reflexivity.
  - destruct (MessageType m =? "PositionReport")%string eqn:Ht.
    + apply String.eqb_eq in Ht.
      destruct (forward_trace kw f (body_PositionReport (Message_Message m))
                  (arrived f (tl (inbound w)) w)) as (a & cs & ->).
      cbn [arrived env inbound broker counters trace].
      destruct (fails (hd Delivered (broker w))) as [e|].
      * eexists. split; [|apply (block_failed kw _ f m a e Hd Ht)].
        rewrite <- !app_assoc. reflexivity.
      * eexists. split; [|apply (block_published kw _ f m a Hd Ht)].
        rewrite <- !app_assoc. reflexivity.
    + apply String.eqb_neq in Ht.
      exists []. split; [reflexivity | apply (block_other kw _ f m Hd Ht)].
Qed.

Lemma fold_blocks (fs : list string) :
  forall w,
    exists cs,
      trace (fold_left (after_frame kw) fs w) = (trace w ++ cs)%list /\
      blocks kw (clock (env w)) fs cs.
Proof.
  induction fs as [|f rest IH]; intros w; cbn [fold_left].
  - exists []. split; [rewrite app_nil_r; reflexivity | constructor].
  - destruct (after_frame_block w f) as (b & Hb & Hblock).
    destruct (IH (after_frame kw w f)) as (cs & Hcs & Hblocks).
    rewrite after_frame_env in Hblocks.
    exists (Received (inr f) :: b ++ cs)%list. split.
    + rewrite Hcs, Hb. rewrite <- app_assoc. reflexivity.
    + constructor; assumption.
Qed.

End Fold.

Section MainFold.
Context `{FloatConv}.

Lemma connect_fold (kw : kafka.Writer) (w : World) :
  dial_error (env w) = None ->
  send_error (env w) = None ->
  run (connectAISStream kw) w
  ≈ Ret (record ConnClosed
           (record (Received (inl (read_error (env w))))
              (fold_left (after_frame kw) (inbound w)
                 (record (Sent TextMessage subscribeJSON None)
                    (record (Dialed feed_url None) w)))),
         Some (Errorf "failed to read message: %w" (read_error (env w)))).
Proof.
  intros Hd Hs.
  pose proof (loop_fold kw (inbound w)
                (record (Sent TextMessage subscribeJSON None)
                   (record (Dialed feed_url None) w)) eq_refl) as Hr.
  unfold connectAISStream. run_step. rewrite Hd. rewrite Marshal_subscribeMessage.
  rewrite bind_bind. run_step. cbn [record env]. rewrite Hs. rewrite bind_bind.
  rewrite (run_bind _ _ _ _ _ Hr). rewrite bind_ret_l.
  run_step. rewrite run_ret. reflexivity.
Qed.

(** A run of [main] whose dial and subscribe succeed, as a fold. *)
Lemma main_fold (w : World) :
  dial_error (env w) = None ->
  send_error (env w) = None ->
  run main w
  ≈ Ret (record (LoggedFatal (Errorf "failed to read message: %w" (read_error (env w))))
           (record ConnClosed
              (record (Received (inl (read_error (env w))))
                 (fold_left (after_frame (writer_of (env w))) (inbound w)
                    (record (Sent TextMessage subscribeJSON None)
                       (record (Dialed feed_url None) (started w)))))), 1).
Proof.
  intros Hd Hs. apply main_run.
  apply (connect_fold (writer_of (env w)) (started w) Hd Hs).
Qed.

End MainFold.

(** ** The calls of a run *)

Section Calls.
Context `{FloatConv}.



(** The three ways a run of [main] goes, by the answers to the dial and to
    the subscribe request. *)
Lemma main_cases (w : World) :
  exists w' cs,
    run main w ≈ Ret (w', 1) /\
    env w' = env w /\
    trace w' = (trace w ++ startup (env w) ++ cs)%list /\
    match dial_error (env w), send_error (env w) with
    | Some e, _ =>
      cs = [Dialed feed_url (Some e); LoggedFatal (Errorf "failed to connect: %w" e)]
    | None, Some e =>
      cs = [Dialed feed_url None; Sent TextMessage subscribeJSON (Some e); ConnClosed;
            LoggedFatal (Errorf "failed to send subscribe message: %w" e)]
    | None, None =>
      exists bs,
        cs = ([Dialed feed_url None; Sent TextMessage subscribeJSON None] ++ bs
              ++ [Received (inl (read_error (env w))); ConnClosed;
                  LoggedFatal (Errorf "failed to read message: %w" (read_error (env w)))])%list /\
        blocks (writer_of (env w)) (clock (env w)) (inbound w) bs
    end.
Proof.
  destruct (dial_error (env w)) as [e|] eqn:Hd.
  - eexists. eexists.
    split; [apply main_run, (connect_dial_failure _ (started w) e Hd)|].
    split; [reflexivity|].
    split; [cbn; rewrite <- !app_assoc; reflexivity | reflexivity].
  - destruct (send_error (env w)) as [e|] eqn:Hs.
    + eexists. eexists.
      split; [apply main_run, (connect_send_failure _ (started w) e Hd Hs)|].
      split; [reflexivity|].
      split; [cbn; rewrite <- !app_assoc; reflexivity | reflexivity].
    + destruct (fold_blocks (writer_of (env w)) (inbound w)
                  (record (Sent TextMessage subscribeJSON None)
                     (record (Dialed feed_url None) (started w))))
        as (bs & Htr & Hbs).
      eexists.
      exists ([Dialed feed_url None; Sent TextMessage subscribeJSON None] ++ bs
              ++ [Received (inl (read_error (env w))); ConnClosed;
                  LoggedFatal (Errorf "failed to read message: %w" (read_error (env w)))])%list.
      split; [apply (main_fold w Hd Hs)|].
      split; [cbn; rewrite fold_after_frame_env; reflexivity|].
      split.
      * cbn [record trace]. rewrite Htr. cbn [record started trace].
        repeat rewrite <- app_assoc. reflexivity.
      * exists bs. split; [reflexivity | exact Hbs].
Qed.

End Calls.



Section RunShape.
Context `{FloatConv}.

(** X7. The shape of a run whose dial and subscribe succeed: between the
    subscribe request and the failed read, the calls are, frame after frame,
    the read of the frame and then one of four blocks: a log line for a frame
    that does not decode; nothing for another message type; clock, print and
    write for a position report; and the same with a log line after it when
    the write returns an error.  So every decoded position report is printed
    before it is written, every failure is logged once, and no other call is
    made. *)
Theorem streaming_run_is_a_sequence_of_blocks (w : World) :
  dial_error (env w) = None ->
  send_error (env w) = None ->
  exists w' bs,
    run main w ≈ Ret (w', 1) /\
    trace w' =
    (trace w ++ startup (env w)
     ++ [Dialed feed_url None; Sent TextMessage subscribeJSON None]
     ++ bs
     ++ [Received (inl (read_error (env w)));
         ConnClosed;
         LoggedFatal (Errorf "failed to read message: %w" (read_error (env w)))])%list /\
    blocks (writer_of (env w)) (clock (env w)) (inbound w) bs.
Proof.
  intros Hd Hs. destruct (main_cases w) as (w' & cs & Hr & _ & Htr & Hcs).
  rewrite Hd, Hs in Hcs. destruct Hcs as (bs & -> & Hbs).
  exists w', bs. split; [exact Hr|]. split; [exact Htr | exact Hbs].
Qed.



End RunShape.

Lemma streaming_run_is_a_sequence_of_blocks_witness :
  exists w' bs,
    run main (world [] 2 [frame_report; frame_truncated; frame_static] [NotWritten (Err "timeout")])
    ≈ Ret (w', 1) /\
    trace w' =
    ([] ++ startup (env (world [] 2 [] []))
     ++ [Dialed feed_url None; Sent TextMessage subscribeJSON None]
     ++ bs
     ++ [Received (inl (Err "EOF"));
         ConnClosed;
         LoggedFatal (Errorf "failed to read message: %w" (Err "EOF"))])%list /\
    blocks (writer_of (env (world [] 2 [] []))) 1761782400
      [frame_report; frame_truncated; frame_static] bs.
Proof.
  exact (streaming_run_is_a_sequence_of_blocks
           (world [] 2 [frame_report; frame_truncated; frame_static]
              [NotWritten (Err "timeout")]) eq_refl eq_refl).
Defined.

(** ** The key and the UserID *)











(** ** The partitions of the topic *)

Section Range.
Import kafka.

Lemma insert_counter_in (c d : leastBytesCounter) (cs : list leastBytesCounter) :
  In c (insert_counter d cs) -> c = d \/ In c cs.
Proof.
  induction cs as [|e cs IH]; cbn [insert_counter].
  - intros [<-|[]]. left. reflexivity.
  - destruct (partition d <? partition e).
    + intros [<-|Hc]; [left; reflexivity | right; exact Hc].
    + intros [<-|Hc]; [right; left; reflexivity|].
      destruct (IH Hc) as [->|Hc']; [left; reflexivity | right; right; exact Hc'].
Qed.

Lemma makeCounters_in (ps : list Z) (c : leastBytesCounter) :
  In c (makeCounters ps) -> In (partition c) ps.
Proof.
  unfold makeCounters. induction ps as [|p ps IH]; cbn [List.map fold_right]; [intros []|].
  intros Hc. apply insert_counter_in in Hc. destruct Hc as [->|Hc].
  - left. reflexivity.
  - right. apply IH, Hc.
Qed.

Lemma add_bytes_partitions (cs : list leastBytesCounter) (i : nat) (n : Z) :
  List.map partition (add_bytes cs i n) = List.map partition cs.
Proof.
  revert i. induction cs as [|c cs IH]; intros [|i]; cbn; try reflexivity.
  rewrite IH. reflexivity.
Qed.

Lemma counters_for_in (cs : LeastBytes_state) (ps : list Z) :
  Forall (fun c => In (partition c) ps) cs ->
  Forall (fun c => In (partition c) ps) (counters_for cs ps).
Proof.
  intros Hcs. unfold counters_for.
  destruct (List.length ps =? List.length cs)%nat; [exact Hcs|].
  apply Forall_forall. intros c. apply makeCounters_in.
Qed.

(** [Balance] answers one of the partitions it was given, and keeps its
    counters on those partitions. *)
Lemma Balance_in (cs cs' : LeastBytes_state) (msg : Message) (ps : list Z) (p : Z) :
  Forall (fun c => In (partition c) ps) cs ->
  Balance cs msg ps = Some (p, cs') ->
  In p ps /\ Forall (fun c => In (partition c) ps) cs'.
Proof.
  intros Hcs HB. pose proof (counters_for_in cs ps Hcs) as Hfor.
  destruct (Balance_least cs cs' msg ps p HB) as (c & Hc & <- & _).
  split.
  - rewrite Forall_forall in Hfor. apply Hfor, Hc.
  - unfold Balance in HB. destruct (counters_for cs ps) as [|c0 tail]; [discriminate|].
    assert (Hcs' : cs' = add_bytes (c0 :: tail) (least tail 0 0 (bytes c0))
                           (len (Key msg) + len (Value msg))) by congruence.
    rewrite Hcs'. apply (Forall_map partition (fun p => In p ps)).
    rewrite add_bytes_partitions.
    apply (Forall_map partition (fun p => In p ps)). exact Hfor.
Qed.

Lemma partitions_of_range (n : positive) (p : Z) :
  In p (partitions_of n) -> 0 <= p < Z.pos n.
Proof.
  unfold partitions_of. intros Hp. apply in_map_iff in Hp as (k & <- & Hk).
  apply in_seq in Hk. lia.
Qed.

Lemma write_in (kw : Writer) (msg : Message) (w : World) :
  Forall (fun c => In (partition c) (partitions_of (numPartitions (env w)))) (counters w) ->
  exists a,
    trace (fst (write kw msg w))
    = (trace w ++ [Wrote kw msg a (fails (hd Delivered (broker w)))])%list /\
    (forall p, a = Some p -> 0 <= p < Z.pos (numPartitions (env w))) /\
    Forall (fun c => In (partition c) (partitions_of (numPartitions (env w))))
      (counters (fst (write kw msg w))).
Proof.
  intros Hcs. unfold write. destruct (Balancer kw).
  destruct (Balance_some (counters w) msg _ (partitions_of_nonempty (numPartitions (env w))))
    as (p & cs & HB).
  rewrite HB. destruct (Balance_in _ _ _ _ _ Hcs HB) as [Hp Hcs'].
  apply partitions_of_range in Hp.
  destruct (hd Delivered (broker w)) as [|e|e]; cbn [fst record trace counters fails].
  - exists (Some p). split; [reflexivity|]. split; [intros q [= <-]; exact Hp | exact Hcs'].
  - exists None. split; [reflexivity|]. split; [discriminate | exact Hcs].
  - exists (Some p). split; [reflexivity|]. split; [intros q [= <-]; exact Hp | exact Hcs'].
Qed.

End Range.

Lemma assignments_app (a b : list call) :
  assignments (a ++ b) = (assignments a ++ assignments b)%list.
Proof. unfold assignments. apply flat_map_app. Qed.

Section RangeOfARun.
Context `{FloatConv}.
Variable kw : kafka.Writer.

Lemma forward_in (f : string) (p : PositionReport) (w : World) :
  Forall (fun c => In (kafka.partition c) (kafka.partitions_of (numPartitions (env w))))
    (counters w) ->
  exists cs,
    trace (forward kw f p w) = (trace w ++ cs)%list /\
    Forall (fun kp => 0 <= snd kp < Z.pos (numPartitions (env w))) (assignments cs) /\
    Forall (fun c => In (kafka.partition c) (kafka.partitions_of (numPartitions (env w))))
      (counters (forward kw f p w)).
Proof.
  intros Hcs. unfold forward. cbn zeta.
  match goal with |- context [write kw ?m ?w2] =>
    destruct (write_in kw m w2 Hcs) as (a & Htr & Ha & Hcs');
    destruct (write_spec kw m w2) as (a' & cs' & Hw)
  end.
  rewrite Hw in *. cbn [fst snd record env inbound broker counters trace] in *.
  apply app_inv_head in Htr. injection Htr as ->.
  exists ([ClockRead (clock (env w));
           Printed ("[%s] ShipId: %d Latitude: %f Longitude: %f" ++ newline)
             [argRFC3339 (clock (env w)); argInt (UserID p);
              argFloat (Latitude p); argFloat (Longitude p)];
           Wrote kw {| kafka.Key := Sprintf_d (UserID p); kafka.Value := f |} a
             (fails (hd Delivered (broker w)))]
          ++ match fails (hd Delivered (broker w)) with
             | Some err => [Logged "failed to write message to kafka: %v" [argError err]]
             | None => []
             end)%list.
  split.
  - destruct (fails (hd Delivered (broker w))); cbn [record trace];
      repeat rewrite <- app_assoc; reflexivity.
  - split.
    + destruct (fails (hd Delivered (broker w))); destruct a as [q|]; cbn;
        repeat constructor; apply (Ha q eq_refl).
    + destruct (fails (hd Delivered (broker w))); exact Hcs'.
Qed.

Lemma after_frame_in (w : World) (f : string) :
  Forall (fun c => In (kafka.partition c) (kafka.partitions_of (numPartitions (env w))))
    (counters w) ->
  exists cs,
    trace (after_frame kw w f) = (trace w ++ cs)%list /\
    Forall (fun kp => 0 <= snd kp < Z.pos (numPartitions (env w))) (assignments cs) /\
    Forall (fun c => In (kafka.partition c) (kafka.partitions_of (numPartitions (env w))))
      (counters (after_frame kw w f)).
Proof.
  intros Hcs. unfold after_frame. destruct (decode.Unmarshal f) as [err|m].
  - eexists. split; [cbn; rewrite <- app_assoc; reflexivity|].
    split; [repeat constructor | exact Hcs].
  - destruct (MessageType m =? "PositionReport")%string.
    + destruct (forward_in f (body_PositionReport (Message_Message m))
                  (arrived f (tl (inbound w)) w) Hcs) as (cs & Htr & Ha & Hcs').
      exists (Received (inr f) :: cs). split; [|split; [exact Ha | exact Hcs']].
      rewrite Htr. cbn [arrived trace]. rewrite <- app_assoc. reflexivity.
    + eexists. split; [reflexivity|]. split; [repeat constructor | exact Hcs].
Qed.

Lemma fold_in (fs : list string) :
  forall w : World,
    Forall (fun c => In (kafka.partition c) (kafka.partitions_of (numPartitions (env w))))
      (counters w) ->
    exists cs,
      trace (fold_left (after_frame kw) fs w) = (trace w ++ cs)%list /\
      Forall (fun kp => 0 <= snd kp < Z.pos (numPartitions (env w))) (assignments cs).
Proof.
  induction fs as [|f rest IH]; intros w Hcs; cbn [fold_left].
  - exists []. split; [rewrite app_nil_r; reflexivity | constructor].
  - destruct (after_frame_in w f Hcs) as (b & Hb & Ha & Hcs').
    rewrite <- (after_frame_env kw w f) in Hcs'.
    destruct (IH _ Hcs') as (cs & Htr & Hcsa).
    rewrite after_frame_env in Hcsa.
    exists (b ++ cs)%list. split.
    + rewrite Htr, Hb, <- app_assoc. reflexivity.
    + rewrite assignments_app. apply Forall_app. split; assumption.
Qed.

End RangeOfARun.

Section Partitions.
Context `{FloatConv}.

(** X12. Every record of a run is assigned a partition of the topic: with
    the balancer of line 107 in its zero state at the start, each partition
    that a [WriteMessages] call of the run is given lies in
    [0 .. numPartitions-1], whatever the frames, their sizes and the outcomes
    of the writes. *)
Theorem records_assigned_within_the_topic (w : World) :
  counters w = [] ->
  exists w' cs,
    run main w ≈ Ret (w', 1) /\
    trace w' = (trace w ++ cs)%list /\
    Forall (fun kp => 0 <= snd kp < Z.pos (numPartitions (env w))) (assignments cs).
Proof.
  intros Hc.
  destruct (dial_error (env w)) as [e|] eqn:Hd.
  - eexists. eexists.
    split; [apply main_run, (connect_dial_failure _ (started w) e Hd)|].
    split; [cbn [record started trace]; repeat rewrite <- app_assoc; reflexivity|].
    cbn. constructor.
  - destruct (send_error (env w)) as [e|] eqn:Hs.
    + eexists. eexists.
      split; [apply main_run, (connect_send_failure _ (started w) e Hd Hs)|].
      split; [cbn [record started trace]; repeat rewrite <- app_assoc; reflexivity|].
      cbn. constructor.
    + destruct (fold_in (writer_of (env w)) (inbound w)
                  (record (Sent TextMessage subscribeJSON None)
                     (record (Dialed feed_url None) (started w)))) as (cs & Htr & Ha).
      { cbn [record started counters]. rewrite Hc. constructor. }
      eexists. eexists. split; [apply (main_fold w Hd Hs)|].
      cbn [record started env trace] in *. rewrite Htr. split.
      * repeat rewrite <- app_assoc. reflexivity.
      * rewrite !assignments_app. repeat (apply Forall_app; split);
          try exact Ha; cbn; constructor.
Qed.

End Partitions.

Lemma records_assigned_within_the_topic_witness :
  exists w' cs,
    run main (world [] 3 [frame_report; frame_static; frame_report] []) ≈ Ret (w', 1) /\
    trace w' = (trace (world [] 3 [frame_report; frame_static; frame_report] []) ++ cs)%list /\
    Forall (fun kp => 0 <= snd kp
                      < Z.pos (numPartitions
                                 (env (world [] 3 [frame_report; frame_static; frame_report] []))))
      (assignments cs).
Proof.
  exact (records_assigned_within_the_topic
           (world [] 3 [frame_report; frame_static; frame_report] []) eq_refl).
Defined.

(** ** The partition of a record and the load of the partitions *)

Section Load.
Import kafka.






End Load.












(** *** Traces whose records go by load *)





Section LoadOfARun.
Context `{FloatConv}.
Variable kw : kafka.Writer.





End LoadOfARun.

Section PartitionByLoad.
Context `{FloatConv}.



End PartitionByLoad.

(** ** The exit of the process *)

Section ExitStatus.
Context `{FloatConv}.

(** X1. [main] has no normal return: a run that ends, ends in [log.Fatal]
    with exit status 1, the fatal log line being its last call; the exit
    with status 0 after a [connectAISStream] that returns nil is never
    reached, since the loop leaves only through an error.  The topic has a
    partition here, so [Balance] does not panic; and a feed that never fails
    keeps the loop reading: such a run does not end and is not spoken of. *)
Theorem main_never_exits_with_status_0 (w w' : World) (status : Z) :
  run main w ≈ Ret (w', status) ->
  status = 1 /\ exists pre err, trace w' = (pre ++ [LoggedFatal err])%list.
Proof.
  intros Hr. destruct (main_cases w) as (w1 & cs & Hr1 & _ & Htr & Hcs).
  destruct (run_deterministic _ _ _ _ _ _ Hr Hr1) as [-> ->].
  split; [reflexivity|]. rewrite Htr.
  destruct (dial_error (env w)) as [e|].
  - subst cs.
    exists (trace w ++ startup (env w) ++ [Dialed feed_url (Some e)])%list. eexists.
    repeat rewrite <- app_assoc. reflexivity.
  - destruct (send_error (env w)) as [e|].
    + subst cs.
      exists (trace w ++ startup (env w)
              ++ [Dialed feed_url None; Sent TextMessage subscribeJSON (Some e);
                  ConnClosed])%list.
      eexists. repeat rewrite <- app_assoc. reflexivity.
    + destruct Hcs as (bs & -> & _).
      exists (trace w ++ startup (env w)
              ++ [Dialed feed_url None; Sent TextMessage subscribeJSON None] ++ bs
              ++ [Received (inl (read_error (env w))); ConnClosed])%list.
      eexists. repeat rewrite <- app_assoc. reflexivity.
Qed.

End ExitStatus.


(** A run that ends on the failed read after one frame. *)
Lemma main_never_exits_with_status_0_witness :
  exists w',
    run main (world [] 1 [frame_report] []) ≈ Ret (w', 1) /\
    1 = 1 /\ exists pre err, trace w' = (pre ++ [LoggedFatal err])%list.
Proof.
  assert (E : exists w', exec 100 main (world [] 1 [frame_report] []) = Some (w', 1))
    by (eexists; vm_compute; reflexivity).
  destruct E as [w' E]. exists w'.
  split; [exact (exec_sound _ _ _ _ _ E)|].
  exact (main_never_exits_with_status_0 (world [] 1 [frame_report] []) w' 1
           (exec_sound _ _ _ _ _ E)).
Defined.
